(** * Mentis: the chat session, its command-line loop and the retrieval
      evaluation harness

    A shallow embedding of [core/mentis_chat.py], [mentis_main.py] and
    [tests/test_retrieval_eval.py].  Python [str] values are byte strings
    (their UTF-8 encoding), a [dict] is an association list in insertion
    order, a call that may raise returns an [outcome]. *)

From Stdlib Require Import String Ascii List ZArith Lia Bool.
From stdpp Require Import gmap strings list pretty.
Import ListNotations.
Local Open Scope string_scope.

(** ** Python values shared by the three files *)

Module Py.

(** The classes of [Exception] the sources name in an [except] clause;
    [OtherException] stands for every other subclass of [Exception]. *)
Inductive exc_class :=
| KeyError | TypeError | ValueError | EOFError | OtherException.

(** An instance of [Exception]: its class and what [str(e)] gives. *)
Record exception := Exc { exc_type : exc_class; exc_str : string }.

(** A call either returns or raises an [Exception]. *)
Inductive outcome (A : Type) :=
| Return (a : A)
| Raise (e : exception).
Arguments Return {A} a.
Arguments Raise {A} e.

(** A [float], held as the text [repr] gives for it (["0.0"],
    ["0.8333"], ["nan"], ["inf"]). *)
Record pyfloat := Float { float_repr : string }.

Definition nl : string := String "010" "".

(** [sep.join(parts)] *)
Fixpoint join (sep : string) (parts : list string) : string :=
  match parts with
  | [] => ""
  | [p] => p
  | p :: rest => p +:+ sep +:+ join sep rest
  end.

(** [char * n], as in ["=" * 80] *)
Fixpoint repeat_char (c : ascii) (n : nat) : string :=
  match n with
  | O => ""
  | S k => String c (repeat_char c k)
  end.

(** *** [str.strip()]

    Python strips the code points for which [str.isspace] holds:
    U+0009..U+000D, U+001C..U+0020, U+0085, U+00A0, U+1680,
    U+2000..U+200A, U+2028, U+2029, U+202F, U+205F and U+3000.  On the
    UTF-8 bytes these are one, two or three bytes long. *)

Definition space1 (a : ascii) : bool :=
  let n := N_of_ascii a in
  ((9 <=? n) && (n <=? 13) || (28 <=? n) && (n <=? 32))%N.

Definition space2 (a b : ascii) : bool :=
  let m := N_of_ascii b in
  ((N_of_ascii a =? 194) && ((m =? 133) || (m =? 160)))%N.

Definition space3 (a b c : ascii) : bool :=
  let k := N_of_ascii c in
  match N_of_ascii a, N_of_ascii b with
  | 225, 154 => (k =? 128)
  | 226, 128 =>
      (128 <=? k) && (k <=? 138) || (k =? 168) || (k =? 169) || (k =? 175)
  | 226, 129 => (k =? 159)
  | 227, 128 => (k =? 128)
  | _, _ => false
  end%N.

(** Drop leading white space; [p2] and [p3] recognise the two- and
    three-byte code points, so that the same loop serves both ends. *)
Fixpoint drop_space (p2 : ascii -> ascii -> bool)
         (p3 : ascii -> ascii -> ascii -> bool) (s : string) : string :=
  match s with
  | String a r1 =>
    if space1 a then drop_space p2 p3 r1
    else
      match r1 with
      | String b r2 =>
        if p2 a b then drop_space p2 p3 r2
        else
          match r2 with
          | String c r3 => if p3 a b c then drop_space p2 p3 r3 else s
          | EmptyString => s
          end
      | EmptyString => s
      end
  | EmptyString => s
  end.

Definition lstrip (s : string) : string := drop_space space2 space3 s.

Definition rstrip (s : string) : string :=
  String.rev
    (drop_space (fun a b => space2 b a) (fun a b c => space3 c b a)
                (String.rev s)).

Definition strip (s : string) : string := rstrip (lstrip s).

(** *** [str.lower()]

    Only the ASCII letters are mapped here.  [str.lower] sends no code
    point outside ASCII to one of the letters of ["quit"], ["exit"] or
    ["q"], which is all its one caller compares the result with. *)
Definition lower_ascii (a : ascii) : ascii :=
  let n := N_of_ascii a in
  if ((65 <=? n) && (n <=? 90))%N then ascii_of_N (n + 32) else a.

Fixpoint lower (s : string) : string :=
  match s with
  | EmptyString => EmptyString
  | String a r => String (lower_ascii a) (lower r)
  end.

End Py.
Import Py.

(** ** [core/mentis_chat.py] *)

Module MentisChat.

(** A record of the vector store as the formatter sees it: for each of
    the four attributes it probes with [hasattr], the attribute's text if
    the object has it, and [str(model_instance)]. *)
Record model_instance := {
  title : option string;
  description : option string;
  name : option string;
  content : option string;
  str : string
}.

(** An entry of a category's list: a [(model, score)] tuple or the bare
    model. *)
Inductive item :=
| Tuple (m : model_instance) (score : pyfloat)
| Bare (m : model_instance).

(** [dict[str, list]]: category name to its entries, in insertion order. *)
Definition results := list (string * list item).

Definition no_information : string := "No relevant information found.".

(** [item[0] if isinstance(item, tuple) else item] *)
Definition model_of (it : item) : model_instance :=
  match it with
  | Tuple m _ => m
  | Bare m => m
  end.

(** The [if / elif / elif / else] chain of the inner loop: the line
    appended for one model. *)
Definition format_model (m : model_instance) : string :=
  match title m, description m with
  | Some t, Some d => "• " +:+ t +:+ ": " +:+ d
  | _, _ =>
    match name m, description m with
    | Some n, Some d => "• " +:+ n +:+ ": " +:+ d
    | _, _ =>
      match content m with
      | Some c => "• " +:+ c
      | None => "• " +:+ str m
      end
    end
  end.

Definition header (category : string) : string :=
  nl +:+ "--- " +:+ category +:+ " ---".

(** The inner [for item in items] loop, appending to [formatted_parts]. *)
Definition append_items (formatted_parts : list string) (items : list item)
  : list string :=
  fold_left (fun parts it => (parts ++ [format_model (model_of it)])%list)
            items formatted_parts.

(** The body of [for category, items in results.items()]. *)
Definition append_category (formatted_parts : list string)
           (entry : string * list item) : list string :=
  let '(category, items) := entry in
  match items with
  | [] => formatted_parts
  | _ :: _ => append_items (formatted_parts ++ [header category])%list items
  end.

Definition formatted_parts (r : results) : list string :=
  fold_left append_category r [].

Definition _format_main_results (r : results) : string :=
  match r with
  | [] => no_information
  | _ :: _ =>
    match formatted_parts r with
    | [] => no_information
    | parts => join nl parts
    end
  end.

(** *** The answer and the chat call *)

(** What [Retriever.retrieve] hands back: a [dict], of which only the
    ["results"] entry is read, or any other object, taken as the results
    themselves. *)
Inductive retrieval_output :=
| Dict (results_entry : option results)
| NotDict (r : results).

(** [self]: the two collaborators created by [__init__]. *)
Record self := {
  retrieve : string -> outcome retrieval_output;
  generate : string -> outcome string
}.

Section Prompt.

(** [config.prompts.mentisPrompt] *)
Variable mentisPrompt : string.

Definition prompt (user_query context : string) : string :=
  mentisPrompt +:+ nl +:+ nl +:+ "User Question: " +:+ user_query
    +:+ nl +:+ nl +:+ "Retrieved Information:" +:+ nl +:+ context
    +:+ nl +:+ nl +:+ "Answer:".

Definition _generate_answer (s : self) (user_query context : string)
  : outcome string :=
  match generate s (prompt user_query context) with
  | Return response => Return response
  | Raise e => Return ("Error generating response: " +:+ exc_str e)
  end.

(** [.get("results", {}) if isinstance(..., dict) else ...] *)
Definition main_results (o : retrieval_output) : results :=
  match o with
  | Dict (Some r) => r
  | Dict None => []
  | NotDict r => r
  end.

Definition chat (s : self) (user_query : string) : outcome string :=
  match retrieve s user_query with
  | Raise e => Raise e
  | Return main_retrieval_output =>
    let main_context :=
      _format_main_results (main_results main_retrieval_output) in
    _generate_answer s user_query main_context
  end.

End Prompt.

(** *** The session as a scoped resource *)

(** Which of the two connections are open. *)
Record connections := {
  vector_store_open : bool;
  llm_client_open : bool
}.

(** Modelled from the spec: [Retriever()] and [LLM_OA("o3")]
    ([core/retriever.py] and [core/llm.py]), which [__init__] calls,
    acquire the Vector Store and the LLM client connection at the start
    of the session. *)
Definition __init__ (c : connections) : connections :=
  {| vector_store_open := true; llm_client_open := true |}.

(** [return self] *)
Definition __enter__ (c : connections) : connections := c.

(** [pass]: nothing is touched, and the [None] it returns lets an
    exception of the block go on. *)
Definition __exit__ (c : connections) (exc : option exception)
  : connections := c.

(** [with MentisChat() as mentis: body]: [__exit__] runs however the
    block ends. *)
Definition with_MentisChat {A : Type}
           (body : connections -> outcome A * connections)
           (c : connections) : outcome A * connections :=
  let entered := __enter__ (__init__ c) in
  let '(r, after) := body entered in
  match r with
  | Return a => (Return a, __exit__ after None)
  | Raise e => (Raise e, __exit__ after (Some e))
  end.

End MentisChat.

(** ** [mentis_main.py] *)

Module Main.
Import MentisChat.

(** What [input(...)] does: it returns a line, the user interrupts it,
    or it raises (end of input). *)
Inductive input_event :=
| Line (text : string)
| KeyboardInterrupt
| InputError (e : exception).

(** What the loop does to the outside: a [print], and a call of
    [mentis.chat]. *)
Inductive event :=
| Print (text : string)
| Chat (user_query : string).

Inductive control := Break | Continue.

Definition exit_tokens : list string := ["quit"; "exit"; "q"].

Definition rule : string := repeat_char "=" 80.

Definition response_block (response : string) : list event :=
  [ Print (nl +:+ rule);
    Print "=🧠 MENTIS RESPONSE";
    Print rule;
    Print response;
    Print (nl +:+ rule +:+ nl) ].

Definition analysing : event :=
  Print (nl +:+ "= Mentis is analyzing your semantic knowledge graph...").

Definition error_report (e : exception) : list event :=
  [ Print ("L Error: " +:+ exc_str e);
    Print ("Please try again." +:+ nl) ].

Section Loop.

Variable mentisPrompt : string.
Variable mentis : self.

(** One turn of [while True], from [input] to the end of the [try]
    statement. *)
Definition iteration (inp : input_event) : list event * control :=
  match inp with
  | KeyboardInterrupt => ([Print (nl +:+ "=K Goodbye from Mentis!")], Break)
  | InputError e => (error_report e, Continue)
  | Line text =>
    let user_query := strip text in
    if decide (lower user_query ∈ exit_tokens) then
      ([Print "=K Goodbye from Mentis!"], Break)
    else if decide (user_query = "") then
      ([Print "Please enter a question."], Continue)
    else
      ( analysing
        :: Chat user_query
        :: match chat mentisPrompt mentis user_query with
           | Return response => response_block response
           | Raise e => error_report e
           end,
        Continue )
  end.

(** The loop over what the user types; [None] when the inputs are used
    up before the loop has ended (it then waits at the prompt). *)
Fixpoint loop (inputs : list input_event) : list event * option unit :=
  match inputs with
  | [] => ([], None)
  | inp :: rest =>
    let '(out, ctl) := iteration inp in
    match ctl with
    | Break => (out, Some tt)
    | Continue => let '(out', r) := loop rest in ((out ++ out')%list, r)
    end
  end.

(** [not os.getenv(...)]: unset or empty. *)
Definition unset (v : option string) : bool :=
  match v with
  | Some (String _ _) => false
  | _ => true
  end.

Definition banner : list event :=
  [ Print "> Mentis initialized - Advanced semantic diary analysis!";
    Print ("Type 'quit' to exit" +:+ nl) ].

(** [main()]: what it prints and calls and whether the loop has ended,
    and the connections it leaves behind. *)
Definition main (USER_ID OPENAI_API_KEY : option string)
           (inputs : list input_event) (c : connections)
  : outcome (list event * option unit) * connections :=
  if unset USER_ID then
    (Return ([Print "L USER_ID environment variable is required"], Some tt), c)
  else if unset OPENAI_API_KEY then
    (Return ([Print "L OPENAI_API_KEY environment variable is required"],
             Some tt), c)
  else
    with_MentisChat
      (fun c' =>
         (Return (let '(out, ended) := loop inputs in
                  ((banner ++ out)%list, ended)), c'))
      c.

End Loop.

End Main.

(** ** [tests/test_retrieval_eval.py] *)

Module RetrievalEvaluator.

(** *** Dictionaries *)

(** A [dict] with [str] keys, in insertion order. *)
Definition pydict (V : Type) := list (string * V).

(** [key in d] *)
Fixpoint contains_key {V : Type} (key : string) (d : pydict V) : bool :=
  match d with
  | [] => false
  | (k, _) :: rest => if String.eqb k key then true else contains_key key rest
  end.

(** [d.get(key)] *)
Fixpoint get {V : Type} (key : string) (d : pydict V) : option V :=
  match d with
  | [] => None
  | (k, v) :: rest => if String.eqb k key then Some v else get key rest
  end.

(** [d[key] = v]: the entry keeps its place when the key is there. *)
Fixpoint setitem {V : Type} (d : pydict V) (key : string) (v : V) : pydict V :=
  match d with
  | [] => [(key, v)]
  | (k, w) :: rest =>
    if String.eqb k key then (k, v) :: rest else (k, w) :: setitem rest key v
  end.

(** What a result record holds. *)
Inductive value :=
| VStr (s : string)
| VInt (n : nat)
| VFloat (f : pyfloat).

Definition record := pydict value.

(** *** The dataset *)

(** The underlying retriever: [retrieve(query, limit)]. *)
Definition retriever := string -> nat -> outcome (list string).

(** Modelled from the spec: [MentisRetrieverAdapter.retrieve]
    ([evaluation/adapters.py]).  It hands the query and [top_k] to the
    retriever it wraps and returns the texts; when the retriever raises
    it returns the empty list ([test_retrieve_error_handling]). *)
Definition adapter_retrieve (r : retriever) (query : string) (top_k : nat)
  : outcome (list string) :=
  match r query top_k with
  | Return docs => Return docs
  | Raise _ => Return []
  end.

(** [eval_data]: two lists filled side by side. *)
Record eval_data := {
  user_input : list string;
  retrieved_contexts : list (list string)
}.

(** A row of the dataset. *)
Definition sample := (string * list string)%type.

(** [HFDataset.from_dict] then [EvaluationDataset.from_hf_dataset]: the
    rows of the two columns. *)
Definition from_dict (d : eval_data) : list sample :=
  combine (user_input d) (retrieved_contexts d).

(** The [for query in queries] loop.  A call of [retrieve] that raises
    ends it: there is no [try] around the call. *)
Fixpoint collect (retrieve : string -> nat -> outcome (list string))
         (queries : list string) (top_k : nat) (d : eval_data)
  : outcome eval_data :=
  match queries with
  | [] => Return d
  | query :: rest =>
    match retrieve query top_k with
    | Raise e => Raise e
    | Return retrieved_docs =>
      match retrieved_docs with
      | [] => collect retrieve rest top_k d
      | _ :: _ =>
        collect retrieve rest top_k
                {| user_input := user_input d ++ [query];
                   retrieved_contexts :=
                     retrieved_contexts d ++ [retrieved_docs] |}
      end
    end
  end%list.

Definition create_ragas_dataset
           (retrieve : string -> nat -> outcome (list string))
           (queries : list string) (top_k : nat) : outcome (list sample) :=
  match collect retrieve queries top_k
                {| user_input := []; retrieved_contexts := [] |} with
  | Raise e => Raise e
  | Return d => Return (from_dict d)
  end.

(** *** Reading the scores out of the library's result *)

(** The object [ragas.evaluate] returns, by what the harness does with
    it: [str(results)], [hasattr(results, '__getitem__')] and
    [results[key]]. *)
Inductive pyobj :=
| OFloat (f : pyfloat)
| OStr (s : string)
| OOther.

Record evaluation_result := {
  result_str : outcome string;
  has_getitem : bool;
  getitem : string -> outcome pyobj
}.

(** [needle in s] *)
Fixpoint contains (needle s : string) : bool :=
  if String.prefix needle s then true
  else match s with
       | String _ rest => contains needle rest
       | EmptyString => false
       end.

Fixpoint drop_chars (n : nat) (s : string) : string :=
  match n, s with
  | S k, String _ rest => drop_chars k rest
  | _, _ => s
  end.

Fixpoint take_while (p : ascii -> bool) (s : string) : string :=
  match s with
  | String a rest => if p a then String a (take_while p rest) else ""
  | EmptyString => ""
  end.

(** The class [[\d.]], on ASCII. *)
Definition digit_or_dot (a : ascii) : bool :=
  let n := N_of_ascii a in
  ((48 <=? n) && (n <=? 57) || (n =? 46))%N.

Definition score_key : string := "nv_context_relevance".
Definition score_pattern : string := "'nv_context_relevance': ".

(** The pattern ['nv_context_relevance': ([\d.]+)] tried at the start of
    [s]: group 1 if it matches there. *)
Definition match_here (s : string) : option string :=
  if String.prefix score_pattern s then
    match take_while digit_or_dot
                     (drop_chars (String.length score_pattern) s) with
    | EmptyString => None
    | group1 => Some group1
    end
  else None.

(** [re.search(...)]: the leftmost match; [match.group(1)]. *)
Fixpoint re_search (s : string) : option string :=
  match match_here s with
  | Some group1 => Some group1
  | None =>
    match s with
    | String _ rest => re_search rest
    | EmptyString => None
    end
  end.

Definition class_eqb (a b : exc_class) : bool :=
  match a, b with
  | KeyError, KeyError | TypeError, TypeError | ValueError, ValueError
  | EOFError, EOFError | OtherException, OtherException => true
  | _, _ => false
  end.

(** [except (C1, C2, ...)] *)
Definition one_of (classes : list exc_class) (e : exception) : bool :=
  existsb (class_eqb (exc_type e)) classes.

(** [except Exception] *)
Definition any_exception (e : exception) : bool := true.

(** The statements of the [try] blocks change [result_dict] and may
    raise; what has been stored before a raise stays stored. *)
Definition M (A : Type) := record -> outcome A * record.

Definition ret {A : Type} (a : A) : M A := fun d => (Return a, d).

Definition bind {A B : Type} (m : M A) (k : A -> M B) : M B :=
  fun d =>
    match m d with
    | (Return a, d') => k a d'
    | (Raise e, d') => (Raise e, d')
    end.

Definition lift {A : Type} (o : outcome A) : M A := fun d => (o, d).

(** [result_dict = {...}] *)
Definition assign (new : record) : M unit := fun _ => (Return tt, new).

(** [result_dict[key] = v] *)
Definition store (key : string) (v : value) : M unit :=
  fun d => (Return tt, setitem d key v).

Definition try_except {A : Type} (body : M A) (caught : exception -> bool)
           (handler : exception -> M A) : M A :=
  fun d =>
    match body d with
    | (Return a, d') => (Return a, d')
    | (Raise e, d') => if caught e then handler e d' else (Raise e, d')
    end.

Notation "x <- m ;; k" := (bind m (fun x => k))
  (at level 100, m at next level, right associativity).
Notation "m ;;; k" := (bind m (fun _ => k))
  (at level 100, right associativity).

Section Harness.

(** [float(text)] of Python: [None] when it raises [ValueError]. *)
Variable float_of_str : string -> option pyfloat.

(** [evaluate(dataset, metrics=self.metrics)] of the scoring library. *)
Variable evaluate : list sample -> outcome evaluation_result.

(** [metric.name] for the metrics of [self.metrics]. *)
Variable metric_names : list string.

Definition float_of_text (text : string) : outcome pyfloat :=
  match float_of_str text with
  | Some f => Return f
  | None => Raise (Exc ValueError "could not convert string to float")
  end.

(** [float(score)] *)
Definition float_of_obj (score : pyobj) : outcome pyfloat :=
  match score with
  | OFloat f => Return f
  | OStr s => float_of_text s
  | OOther => Raise (Exc TypeError "float() argument must be a string or a real number")
  end.

(** Lines 141 to 146: the score read out of the printed result. *)
Definition score_from_text (results : evaluation_result) : M unit :=
  s <- lift (result_str results) ;;
  if contains score_key s then
    raw_str <- lift (result_str results) ;;
    match re_search raw_str with
    | Some group1 =>
      f <- lift (float_of_text group1) ;; store score_key (VFloat f)
    | None => ret tt
    end
  else ret tt.

(** Lines 149 to 153: the direct access, in its own [try]. *)
Definition score_from_item (results : evaluation_result) : M unit :=
  try_except
    (score <- lift (getitem results score_key) ;;
     f <- lift (float_of_obj score) ;;
     store score_key (VFloat f))
    (one_of [KeyError; TypeError])
    (fun _ => ret tt).

(** Lines 137 to 158; both [print]s are left out. *)
Definition extract_scores (results : evaluation_result) : M unit :=
  if has_getitem results then
    try_except
      (score_from_text results ;;; score_from_item results)
      any_exception
      (fun _ => ret tt)
  else ret tt.

(** Lines 130 to 134, and again 162 to 166. *)
Definition summary (retriever_name : string) (dataset : list sample)
           (results : evaluation_result) : M unit :=
  raw <- lift (result_str results) ;;
  assign [ ("retriever", VStr retriever_name);
           ("num_queries", VInt (length dataset));
           ("raw_results", VStr raw) ].

(** [for metric in self.metrics: result_dict[metric.name] = 0.0] *)
Fixpoint default_metrics (names : list string) : M unit :=
  match names with
  | [] => ret tt
  | metric_name :: rest =>
    store metric_name (VFloat (Float "0.0")) ;;; default_metrics rest
  end.

(** Lines 126 to 169: the [try] with its
    [except (KeyError, TypeError, ValueError)]. *)
Definition process_results (retriever_name : string)
           (dataset : list sample) (results : evaluation_result)
  : M unit :=
  try_except
    (summary retriever_name dataset results ;;; extract_scores results)
    (one_of [KeyError; TypeError; ValueError])
    (fun _ =>
       summary retriever_name dataset results ;;;
       default_metrics metric_names).

Definition error_record (message : string) : record :=
  [("error", VStr message)].

(** [evaluate_retriever]; the outermost [except Exception] turns
    whatever was raised into an error record. *)
Definition evaluate_retriever (retriever_name : string)
           (retrieve : string -> nat -> outcome (list string))
           (queries : list string) : record :=
  match create_ragas_dataset retrieve queries 5 with
  | Raise e => error_record (exc_str e)
  | Return dataset =>
    match dataset with
    | [] => error_record "No valid data"
    | _ :: _ =>
      match evaluate dataset with
      | Raise e => error_record (exc_str e)
      | Return results =>
        match process_results retriever_name dataset results [] with
        | (Return _, result_dict) => result_dict
        | (Raise e, _) => error_record (exc_str e)
        end
      end
    end
  end.

(** [run_evaluation], from the queries [load_queries] returned and the
    adapters of [get_all_adapters], each given by the retriever it
    wraps. *)
Definition run_evaluation (queries : list string)
           (adapters : pydict retriever) : pydict record :=
  fold_left
    (fun all_results '(name, adapter) =>
       setitem all_results name
               (evaluate_retriever name (adapter_retrieve adapter) queries))
    adapters [].

End Harness.

(** *** Saving the results *)

Definition quote : string := String "034" "".
Definition backslash : string := String "092" "".

Definition hex_digit (n : N) : ascii :=
  match String.get (N.to_nat n) "0123456789abcdef" with
  | Some a => a
  | None => "0"%char
  end.

(** [ESCAPE_DCT] of [json.encoder], used when [ensure_ascii] is false:
    the quote, the backslash and the control characters below U+0020 are
    escaped, every other character is written as it is. *)
Definition escape (a : ascii) : string :=
  let n := N_of_ascii a in
  if (n =? 34)%N then backslash +:+ quote
  else if (n =? 92)%N then backslash +:+ backslash
  else if (n =? 10)%N then backslash +:+ "n"
  else if (n =? 13)%N then backslash +:+ "r"
  else if (n =? 9)%N then backslash +:+ "t"
  else if (n =? 8)%N then backslash +:+ "b"
  else if (n =? 12)%N then backslash +:+ "f"
  else if (n <? 32)%N then
    backslash +:+ "u00"
      +:+ String (hex_digit (n / 16)) (String (hex_digit (n mod 16)) "")
  else String a "".

Fixpoint escape_all (s : string) : string :=
  match s with
  | EmptyString => ""
  | String a rest => escape a +:+ escape_all rest
  end.

Definition encode_basestring (s : string) : string :=
  quote +:+ escape_all s +:+ quote.

(** [floatstr] of [json.encoder]: [float.__repr__], but for the three
    values JSON has no literal for. *)
Definition floatstr (f : pyfloat) : string :=
  let r := float_repr f in
  if String.eqb r "nan" then "NaN"
  else if String.eqb r "inf" then "Infinity"
  else if String.eqb r "-inf" then "-Infinity"
  else r.

Definition dump_value (v : value) : string :=
  match v with
  | VStr s => encode_basestring s
  | VInt n => pretty n
  | VFloat f => floatstr f
  end.

Definition dump_item (entry : string * value) : string :=
  "  " +:+ encode_basestring (fst entry) +:+ ": " +:+ dump_value (snd entry).

(** [json.dumps(result, indent=2, ensure_ascii=False)] of a record. *)
Definition dumps (result : record) : string :=
  match result with
  | [] => "{}"
  | _ :: _ =>
    "{" +:+ nl +:+ join ("," +:+ nl) (map dump_item result) +:+ nl +:+ "}"
  end.

(** [os.path.join(a, b)] of [posixpath]. *)
Definition path_join (a b : string) : string :=
  if String.prefix "/" b then b
  else if String.eqb a "" || String.prefix "/" (String.rev a) then a +:+ b
  else a +:+ "/" +:+ b.

Definition output_file (output_dir retriever_name : string) : string :=
  path_join output_dir ("results_" +:+ retriever_name +:+ ".json").

(** The files, by path.  [open(path, 'w')] followed by [json.dump]
    leaves the file with the dumped text, whatever it held. *)
Definition save_results (results : pydict record) (output_dir : string)
           (files : gmap string string) : gmap string string :=
  fold_left
    (fun fs '(retriever_name, result) =>
       if contains_key "error" result then fs
       else <[output_file output_dir retriever_name := dumps result]> fs)
    results files.

End RetrievalEvaluator.

(** ** [tests/test_retrieval_eval.py]: the queries, the summary, the script *)

Module Report.
Import RetrievalEvaluator.

(** What [json.load] gives for the queries file, with the entries typed as
    the annotation [List[str]] says: a list, a [dict] with or without a
    ["queries"] entry, or any other value. *)
Inductive json_data :=
| JList (items : list string)
| JDict (queries_entry : option (list string))
| JOther.

(** The queries file: [open] raises [FileNotFoundError], [open] or
    [json.load] raise something else, or the file is loaded. *)
Inductive queries_file :=
| Missing
| Unreadable (e : exception)
| Content (data : json_data).

Definition sample_queries : list string :=
  [ "What activities did the user do with friends?";
    "What work-related challenges did the user face?";
    "What emotions did the user express about family relationships?" ].

(** [load_queries]: only [FileNotFoundError] is caught. *)
Definition load_queries (file : queries_file) : outcome (list string) :=
  match file with
  | Missing => Return sample_queries
  | Unreadable e => Raise e
  | Content (JList items) => Return items
  | Content (JDict (Some queries)) => Return queries
  | Content _ => Raise (Exc ValueError "Invalid queries file format")
  end.

(** A byte that continues a code point in UTF-8. *)
Definition continuation (a : ascii) : bool :=
  let n := N_of_ascii a in
  ((128 <=? n) && (n <=? 191))%N.

(** [len(s)]: the code points of a [str]. *)
Fixpoint code_points (s : string) : nat :=
  match s with
  | EmptyString => 0
  | String a rest => (if continuation a then 0 else 1) + code_points rest
  end.

(** [format(s, '<width')]: padded on the right, never cut. *)
Definition ljust (width : nat) (s : string) : string :=
  s +:+ repeat_char " " (width - code_points s).

(** [str(v)] *)
Definition to_str (v : value) : string :=
  match v with
  | VStr s => s
  | VInt n => pretty n
  | VFloat f => float_repr f
  end.

Definition heading : list string :=
  [ nl +:+ repeat_char "=" 80;
    "RETRIEVAL EVALUATION SUMMARY";
    repeat_char "=" 80;
    ljust 15 "Retriever" +:+ " " +:+ ljust 8 "Queries" +:+ " "
      +:+ ljust 15 "Context Relevance";
    repeat_char "-" 60 ].

Section Summary.

(** [format(f, '.3f')] of a [float]. *)
Variable format_3f : pyfloat -> string.

(** [format(relevance, '<15.3f')] *)
Definition format_relevance (relevance : value) : outcome string :=
  match relevance with
  | VFloat f => Return (ljust 15 (format_3f f))
  | VInt n => Return (ljust 15 (pretty n +:+ ".000"))
  | VStr _ =>
    Raise (Exc ValueError "Unknown format code 'f' for object of type 'str'")
  end.

(** The line [print_summary] prints for one retriever. *)
Definition summary_row (name : string) (result : record) : outcome string :=
  match get "error" result with
  | Some message => Return (ljust 15 name +:+ " ERROR: " +:+ to_str message)
  | None =>
    let relevance :=
      match get "nv_context_relevance" result with
      | Some v => v
      | None =>
        match get "context_relevance" result with
        | Some v => v
        | None => VInt 0
        end
      end in
    let num_queries :=
      match get "num_queries" result with
      | Some v => v
      | None => VInt 0
      end in
    match format_relevance relevance with
    | Raise e => Raise e
    | Return shown =>
      Return (ljust 15 name +:+ " " +:+ ljust 8 (to_str num_queries)
                +:+ " " +:+ shown)
    end
  end.

(** The [for name, result in results.items()] loop: the lines printed, and
    whether it got to its end. *)
Fixpoint summary_rows (results : pydict record) : list string * outcome unit :=
  match results with
  | [] => ([], Return tt)
  | (name, result) :: rest =>
    match summary_row name result with
    | Raise e => ([], Raise e)
    | Return line =>
      let '(lines, r) := summary_rows rest in (line :: lines, r)
    end
  end.

Definition print_summary (results : pydict record)
  : list string * outcome unit :=
  let '(lines, r) := summary_rows results in ((heading ++ lines)%list, r).

Variable float_of_str : string -> option pyfloat.
Variable evaluate : list sample -> outcome evaluation_result.
Variable metric_names : list string.

(** [run_evaluation] from its first line: the queries are loaded, then
    each adapter is evaluated. *)
Definition run (file : queries_file) (adapters : pydict retriever)
  : outcome (pydict record) :=
  match load_queries file with
  | Raise e => Raise e
  | Return queries =>
    Return (run_evaluation float_of_str evaluate metric_names queries adapters)
  end.

(** The [__main__] block: the files it leaves, the lines of the summary
    (or the line saying that there is none) and how it ends.  The progress
    messages of the run and of the saving are not modelled. *)
Definition script (file : queries_file) (adapters : pydict retriever)
           (files : gmap string string)
  : gmap string string * list string * outcome unit :=
  match run file adapters with
  | Raise e => (files, [], Raise e)
  | Return [] => (files, ["No results to display"], Return tt)
  | Return results =>
    let '(lines, r) := print_summary results in
    (save_results results "evaluation" files, lines, r)
  end.

End Summary.

End Report.

(** ** [tests/test_adapters.py]: the mock retriever *)

Module Mocks.

Record MockRetriever := {
  name : string;
  mock_results : list string;
  enter_called : bool;
  exit_called : bool
}.

(** [__init__]: [mock_results or [...]], so that an empty list, like no
    list, gives the three default results. *)
Definition new (name : string) (mock_results : option (list string))
  : MockRetriever :=
  {| name := name;
     mock_results :=
       match mock_results with
       | Some (result :: rest) => result :: rest
       | _ => ["result1"; "result2"; "result3"]
       end;
     enter_called := false;
     exit_called := false |}.

(** [retrieve]: [self.mock_results[:limit]], for a count [limit]. *)
Definition retrieve (self : MockRetriever) (query : string) (limit : nat)
  : list string :=
  firstn limit (mock_results self).

Definition __enter__ (self : MockRetriever) : MockRetriever :=
  {| name := name self; mock_results := mock_results self;
     enter_called := true; exit_called := exit_called self |}.

Definition __exit__ (self : MockRetriever) : MockRetriever :=
  {| name := name self; mock_results := mock_results self;
     enter_called := enter_called self; exit_called := true |}.

(** The mock as the retriever an adapter wraps. *)
Definition as_retriever (self : MockRetriever) : RetrievalEvaluator.retriever :=
  fun query limit => Return (retrieve self query limit).

End Mocks.

(** ** [core/mentis_chat.py]: entries that are any object *)

Module Objects.
Import MentisChat.

(** An entry of a category's list by what line 41 asks of it: an object
    that is not a tuple; a plain tuple, by its elements; or a record that
    is itself a tuple instance (a named tuple), by what it exposes and by
    its elements.  An element is given by what it exposes. *)
Inductive pyobject :=
| Plain (m : model_instance)
| PyTuple (elements : list model_instance)
| NamedTuple (m : model_instance) (elements : list model_instance).

(** What a [float] exposes: none of the four attributes. *)
Definition float_view (f : pyfloat) : model_instance :=
  {| title := None; description := None; name := None; content := None;
     str := float_repr f |}.

(** The tuple [(model, score)]. *)
Definition pair (m : model_instance) (score : pyfloat) : pyobject :=
  PyTuple [m; float_view score].

(** [item[0] if isinstance(item, tuple) else item]; the empty tuple has no
    first element ([IndexError]). *)
Definition model_instance_of (item : pyobject) : outcome model_instance :=
  match item with
  | Plain m => Return m
  | PyTuple (first :: _) => Return first
  | NamedTuple _ (first :: _) => Return first
  | PyTuple [] => Raise (Exc OtherException "tuple index out of range")
  | NamedTuple _ [] => Raise (Exc OtherException "tuple index out of range")
  end.

(** The inner loop; an exception leaves it, and the formatter. *)
Fixpoint append_objects (formatted_parts : list string)
         (items : list pyobject) : outcome (list string) :=
  match items with
  | [] => Return formatted_parts
  | item :: rest =>
    match model_instance_of item with
    | Raise e => Raise e
    | Return model_instance =>
      append_objects (formatted_parts ++ [format_model model_instance])%list
                     rest
    end
  end.

(** The outer loop. *)
Fixpoint append_categories (formatted_parts : list string)
         (r : list (string * list pyobject)) : outcome (list string) :=
  match r with
  | [] => Return formatted_parts
  | (category, items) :: rest =>
    match items with
    | [] => append_categories formatted_parts rest
    | _ :: _ =>
      match append_objects (formatted_parts ++ [header category])%list
                           items with
      | Raise e => Raise e
      | Return parts => append_categories parts rest
      end
    end
  end.

(** [_format_main_results] over such entries. *)
Definition format_objects (r : list (string * list pyobject))
  : outcome string :=
  match r with
  | [] => Return no_information
  | _ :: _ =>
    match append_categories [] r with
    | Raise e => Raise e
    | Return [] => Return no_information
    | Return parts => Return (join nl parts)
    end
  end.

(** The entries of [MentisChat.item] among the objects. *)
Definition object_of (it : item) : pyobject :=
  match it with
  | Tuple m score => pair m score
  | Bare m => Plain m
  end.

Definition objects_of (r : results) : list (string * list pyobject) :=
  map (fun entry => (fst entry, map object_of (snd entry))) r.

End Objects.

(** ** [tests/test_retrieval_eval.py]: saving, with the operating system *)

Module Disk.
Import RetrievalEvaluator.

Section Os.

(** [os.makedirs(path, exist_ok=True)] and [open(path, 'w',
    encoding='utf-8')] on the machine at hand: whether they raise. *)
Variable makedirs : string -> outcome unit.
Variable open_w : string -> outcome unit.

(** [os.makedirs] raises [FileNotFoundError] for the empty path on every
    machine. *)
Definition os_makedirs (path : string) : outcome unit :=
  if String.eqb path "" then
    Raise (Exc OtherException "[Errno 2] No such file or directory: ''")
  else makedirs path.

(** The [for retriever_name, result in results.items()] loop: a file
    that cannot be opened ends it, with the files written so far. *)
Fixpoint save_entries (results : pydict record) (output_dir : string)
         (files : gmap string string) : gmap string string * outcome unit :=
  match results with
  | [] => (files, Return tt)
  | (retriever_name, result) :: rest =>
    if contains_key "error" result then save_entries rest output_dir files
    else
      match open_w (output_file output_dir retriever_name) with
      | Raise e => (files, Raise e)
      | Return _ =>
        save_entries
          rest output_dir
          (<[output_file output_dir retriever_name := dumps result]> files)
      end
  end.

(** [save_results]: the files it leaves and how it ends. *)
Definition save_results (results : pydict record) (output_dir : string)
           (files : gmap string string) : gmap string string * outcome unit :=
  match os_makedirs output_dir with
  | Raise e => (files, Raise e)
  | Return _ => save_entries results output_dir files
  end.

End Os.

End Disk.

(** ** [mentis_main.py]: the loop under keyboard interrupts *)

Module Interrupts.
Import MentisChat Main.

(** How a turn ends: the loop goes on, it is left by [break], or a
    [KeyboardInterrupt] leaves [main]. *)
Inductive ending := Continues | Breaks | Escapes.

(** A turn: what [input] does, and the moment of a keyboard interrupt
    that comes later in the turn, if one does: [Some k] when it strikes
    after [k] of the prints and calls of the turn, while the next one is
    under way. *)
Record turn := { input : input_event; interrupt : option nat }.

Section Loop.

Variable mentisPrompt : string.
Variable mentis : self.

(** How many of the prints and calls of a turn stand in the [try] block;
    the others stand in one of its handlers. *)
Definition in_try (inp : input_event) : nat :=
  match inp with
  | Line text =>
    let user_query := strip text in
    if decide (lower user_query ∈ exit_tokens) then 1
    else if decide (user_query = "") then 1
    else
      match chat mentisPrompt mentis user_query with
      | Return response => 2 + length (response_block response)
      | Raise _ => 2
      end
  | KeyboardInterrupt => 0
  | InputError _ => 0
  end.

(** The call that was under way when the interrupt struck. *)
Definition under_way (out : list event) (k : nat) : list event :=
  match nth_error out k with
  | Some (Chat user_query) => [Chat user_query]
  | _ => []
  end.

(** One turn.  An interrupt that strikes in the [try] block is caught by
    [except KeyboardInterrupt]; one that strikes in a handler is caught by
    nothing. *)
Definition iteration (t : turn) : list event * ending :=
  let '(out, ctl) := Main.iteration mentisPrompt mentis (input t) in
  let uninterrupted :=
    (out, match ctl with Break => Breaks | Continue => Continues end) in
  match interrupt t with
  | None => uninterrupted
  | Some k =>
    if (k <? length out)%nat then
      if (k <? in_try (input t))%nat then
        ((firstn k out ++ under_way out k
            ++ [Print (nl +:+ "=K Goodbye from Mentis!")])%list,
         Breaks)
      else (firstn k out, Escapes)
    else uninterrupted
  end.

(** The loop over the turns; [None] while it waits at the prompt. *)
Fixpoint loop (turns : list turn) : list event * option ending :=
  match turns with
  | [] => ([], None)
  | t :: rest =>
    let '(out, e) := iteration t in
    match e with
    | Continues => let '(out', r) := loop rest in ((out ++ out')%list, r)
    | Breaks => (out, Some Breaks)
    | Escapes => (out, Some Escapes)
    end
  end.

End Loop.

(** A turn without a later interrupt. *)
Definition quiet (inp : input_event) : turn :=
  {| input := inp; interrupt := None |}.

End Interrupts.

(** * Properties *)

(** ** Vocabulary of the statements *)

Module Spec.
Import MentisChat.

(** What one category contributes to the formatted text: nothing when it
    has no entries, else its header and one line for each entry. *)
Definition category_parts (entry : string * list item) : list string :=
  match snd entry with
  | [] => []
  | items => header (fst entry) :: map (fun it => format_model (model_of it)) items
  end.

(** A Result Set without its scores: the categories, in order, each with
    its records. *)
Definition records_of (r : results) : list (string * list model_instance) :=
  map (fun entry => (fst entry, map model_of (snd entry))) r.

(** The same Result Set with every entry given as a bare record. *)
Definition bare (r : results) : results :=
  map (fun entry => (fst entry, map (fun it => Bare (model_of it)) (snd entry))) r.

(** The formatted text, from the records alone. *)
Definition record_parts (entry : string * list model_instance)
  : list string :=
  match snd entry with
  | [] => []
  | models => header (fst entry) :: map format_model models
  end.

Definition format_records (rs : list (string * list model_instance))
  : string :=
  match flat_map record_parts rs with
  | [] => no_information
  | parts => join nl parts
  end.

(** The rows a retriever yields for a list of queries: one for each
    query, in order, for which it returns at least one text. *)
Definition valid_rows (r : RetrievalEvaluator.retriever)
           (queries : list string) (top_k : nat)
  : list RetrievalEvaluator.sample :=
  flat_map
    (fun query =>
       match r query top_k with
       | Return (doc :: docs) => [(query, doc :: docs)]
       | _ => []
       end)
    queries.

(** The record of a retriever whose scores could not be read. *)
Definition summary_record (retriever_name : string) (num_queries : nat)
           (raw : string) : RetrievalEvaluator.record :=
  [ ("retriever", RetrievalEvaluator.VStr retriever_name);
    ("num_queries", RetrievalEvaluator.VInt num_queries);
    ("raw_results", RetrievalEvaluator.VStr raw) ].

(** An input that ends the loop: an interrupt at the prompt, or a line
    that is an exit token once trimmed and lowered. *)
Definition stops (inp : Main.input_event) : bool :=
  match inp with
  | Main.KeyboardInterrupt => true
  | Main.InputError _ => false
  | Main.Line text => bool_decide (lower (strip text) ∈ Main.exit_tokens)
  end.

(** The queries the loop hands to [chat], in order. *)
Fixpoint chat_calls (trace : list Main.event) : list string :=
  match trace with
  | [] => []
  | Main.Chat user_query :: rest => user_query :: chat_calls rest
  | Main.Print _ :: rest => chat_calls rest
  end.

(** What the printed result says about the score: nothing, a number that
    [float] rejects, or a score. *)
Definition printed_score (float_of_str : string -> option pyfloat)
           (raw : string) : option (option pyfloat) :=
  match RetrievalEvaluator.re_search raw with
  | Some group1 => Some (float_of_str group1)
  | None => None
  end.

Fixpoint all_chars (p : ascii -> bool) (s : string) : bool :=
  match s with
  | EmptyString => true
  | String a rest => p a && all_chars p rest
  end.

(** A record with the score that was read. *)
Definition scored_record (retriever_name : string) (num_queries : nat)
           (raw : string) (f : pyfloat) : RetrievalEvaluator.record :=
  (summary_record retriever_name num_queries raw
     ++ [(RetrievalEvaluator.score_key, RetrievalEvaluator.VFloat f)])%list.

(** The queries among the inputs: the trimmed text of every line before
    the first input that ends the loop, but for the blank lines. *)
Fixpoint queries_of (inputs : list Main.input_event) : list string :=
  match inputs with
  | [] => []
  | inp :: rest =>
    if stops inp then []
    else
      match inp with
      | Main.Line text =>
        if decide (strip text = "") then queries_of rest
        else strip text :: queries_of rest
      | _ => queries_of rest
      end
  end.

(** What line 41 gives for each entry of each category. *)
Definition object_records (r : list (string * list Objects.pyobject))
  : list (string * list (outcome MentisChat.model_instance)) :=
  map (fun entry => (fst entry, map Objects.model_instance_of (snd entry))) r.

(** The formatted text from what line 41 gave. *)
Fixpoint record_lines (parts : list string)
         (models : list (outcome MentisChat.model_instance))
  : outcome (list string) :=
  match models with
  | [] => Return parts
  | Raise e :: _ => Raise e
  | Return m :: rest =>
    record_lines (parts ++ [MentisChat.format_model m])%list rest
  end.

Fixpoint record_categories (parts : list string)
         (rs : list (string * list (outcome MentisChat.model_instance)))
  : outcome (list string) :=
  match rs with
  | [] => Return parts
  | (category, models) :: rest =>
    match models with
    | [] => record_categories parts rest
    | _ :: _ =>
      match record_lines (parts ++ [MentisChat.header category])%list
                         models with
      | Raise e => Raise e
      | Return parts' => record_categories parts' rest
      end
    end
  end.

Definition record_text
           (rs : list (string * list (outcome MentisChat.model_instance)))
  : outcome string :=
  match rs with
  | [] => Return MentisChat.no_information
  | _ :: _ =>
    match record_categories [] rs with
    | Raise e => Raise e
    | Return [] => Return MentisChat.no_information
    | Return parts => Return (join nl parts)
    end
  end.

(** A text of ASCII characters only. *)
Definition ascii_char (a : ascii) : bool := (N_of_ascii a <? 128)%N.

Definition ascii_text (s : string) : bool := all_chars ascii_char s.




(** A turn that ends the loop: its input does, or an interrupt strikes
    before the turn is over. *)
Definition ends (mentisPrompt : string) (mentis : MentisChat.self)
           (t : Interrupts.turn) : bool :=
  stops (Interrupts.input t)
  || match Interrupts.interrupt t with
     | Some k =>
       (k <? length (fst (Main.iteration mentisPrompt mentis
                                         (Interrupts.input t))))%nat
     | None => false
     end.

(** The query of a turn in which the chat is called: the line is neither
    blank nor an exit token, and no interrupt strikes before the call. *)
Definition turn_query (t : Interrupts.turn) : list string :=
  match Interrupts.input t with
  | Main.Line text =>
    if stops (Interrupts.input t) then []
    else if decide (strip text = "") then []
    else
      match Interrupts.interrupt t with
      | Some 0 => []
      | _ => [strip text]
      end
  | _ => []
  end.

Fixpoint queries_of_turns (mentisPrompt : string) (mentis : MentisChat.self)
         (turns : list Interrupts.turn) : list string :=
  match turns with
  | [] => []
  | t :: rest =>
    (turn_query t
       ++ if ends mentisPrompt mentis t then []
          else queries_of_turns mentisPrompt mentis rest)%list
  end.

End Spec.

(** ** The result formatter *)

Section Formatter.
Import MentisChat Spec.

Lemma append_items_app (acc : list string) (items : list item) :
  append_items acc items
  = (acc ++ map (fun it => format_model (model_of it)) items)%list.
Proof.
  unfold append_items. revert acc.
  induction items as [|it items IH]; intros acc; simpl.
  - by rewrite app_nil_r.
  - rewrite IH. by rewrite <- app_assoc.
Qed.

Lemma append_category_app (acc : list string) (entry : string * list item) :
  append_category acc entry = (acc ++ category_parts entry)%list.
Proof.
  destruct entry as [category [|it items]];
    unfold append_category, category_parts; cbn [fst snd].
  - by rewrite app_nil_r.
  - rewrite append_items_app. by rewrite <- app_assoc.
Qed.

Lemma fold_append_category (r : results) (acc : list string) :
  fold_left append_category r acc = (acc ++ flat_map category_parts r)%list.
Proof.
  revert acc. induction r as [|entry r IH]; intros acc; simpl.
  - by rewrite app_nil_r.
  - rewrite IH, append_category_app. by rewrite <- app_assoc.
Qed.

Lemma formatted_parts_flat (r : results) :
  formatted_parts r = flat_map category_parts r.
Proof. unfold formatted_parts. by rewrite fold_append_category. Qed.

Lemma format_main_results_parts (r : results) :
  _format_main_results r
  = match formatted_parts r with
    | [] => no_information
    | parts => join nl parts
    end.
Proof. by destruct r. Qed.

End Formatter.

(** ** Strings *)

Section Strings.

Lemma string_app_cons (a : ascii) (s t : string) :
  String a s +:+ t = String a (s +:+ t).
Proof. reflexivity. Qed.

Lemma string_app_nil_l (t : string) : "" +:+ t = t.
Proof. reflexivity. Qed.

Lemma string_length_app (s t : string) :
  String.length (s +:+ t) = String.length s + String.length t.
Proof.
  induction s as [|a s IH]; [done |].
  rewrite string_app_cons. simpl. by rewrite IH.
Qed.

Lemma string_app_assoc (s t u : string) : (s +:+ t) +:+ u = s +:+ t +:+ u.
Proof.
  induction s as [|a s IH]; [done |].
  rewrite !string_app_cons. by rewrite IH.
Qed.

(** A common suffix can be cancelled. *)
Lemma string_app_inj_r (t s1 s2 : string) : s1 +:+ t = s2 +:+ t -> s1 = s2.
Proof.
  revert s2. induction s1 as [|a s1 IH]; intros [|b s2] H;
    rewrite ?string_app_cons, ?string_app_nil_l in H.
  - done.
  - apply (f_equal String.length) in H. simpl in H.
    rewrite string_length_app in H. lia.
  - apply (f_equal String.length) in H. simpl in H.
    rewrite string_length_app in H. lia.
  - injection H as -> H. f_equal. by apply IH.
Qed.

End Strings.

(** ** The priority of the rendering rules, and the sentinel *)

Section FormatterClaims.
Import MentisChat Spec.

Lemma header_inj (c1 c2 : string) : header c1 = header c2 -> c1 = c2.
Proof.
  unfold header. intros H.
  apply String.app_inj in H. apply String.app_inj in H.
  by apply string_app_inj_r in H.
Qed.

Lemma header_not_line (c : string) (m : model_instance) :
  header c <> format_model m.
Proof.
  unfold header, format_model.
  destruct (title m), (description m), (name m), (content m); discriminate.
Qed.


(** C2.  For the empty Result Set the formatter returns the sentinel
    "No relevant information found.", which is not the empty string. *)
Theorem format_empty_result_set :
  _format_main_results [] = "No relevant information found."
  /\ _format_main_results [] <> "".
Proof. split; [reflexivity | discriminate]. Qed.

End FormatterClaims.

(** ** Scores, and categories without entries *)

Section FormatterScores.
Import MentisChat Spec.

Lemma category_parts_records (entry : string * list item) :
  category_parts entry = record_parts (fst entry, map model_of (snd entry)).
Proof.
  destruct entry as [category [|it items]]; [done |].
  unfold category_parts, record_parts; cbn [fst snd map].
  by rewrite map_map.
Qed.

Lemma format_by_records (r : results) :
  _format_main_results r = format_records (records_of r).
Proof.
  rewrite format_main_results_parts, formatted_parts_flat.
  unfold format_records, records_of.
  replace (flat_map record_parts
             (map (fun entry => (fst entry, map model_of (snd entry))) r))
    with (flat_map category_parts r); [done |].
  induction r as [|entry r IH]; [done |].
  cbn [flat_map map]. by rewrite IH, category_parts_records.
Qed.

Lemma records_of_bare (r : results) : records_of (bare r) = records_of r.
Proof.
  unfold records_of, bare. rewrite map_map.
  apply map_ext. intros [category items]; cbn [fst snd].
  f_equal. rewrite map_map. by apply map_ext.
Qed.

Lemma append_objects_records (parts : list string)
      (items : list Objects.pyobject) :
  Objects.append_objects parts items
  = record_lines parts (map Objects.model_instance_of items).
Proof.
  revert parts. induction items as [|item items IH]; intros parts; [done |].
  cbn [Objects.append_objects map record_lines].
  by destruct (Objects.model_instance_of item).
Qed.

Lemma append_categories_records (parts : list string)
      (r : list (string * list Objects.pyobject)) :
  Objects.append_categories parts r
  = record_categories parts (object_records r).
Proof.
  revert parts. induction r as [|[category items] r IH]; intros parts;
    [done |].
  cbn [Objects.append_categories object_records map record_categories fst snd].
  fold (object_records r).
  destruct items as [|item items]; [apply IH |].
  rewrite append_objects_records. cbn [map].
  by destruct (record_lines _ _).
Qed.

Lemma format_objects_records (r : list (string * list Objects.pyobject)) :
  Objects.format_objects r = record_text (object_records r).
Proof.
  destruct r as [|entry r]; [done |].
  unfold Objects.format_objects, record_text.
  rewrite append_categories_records. by destruct entry.
Qed.

Lemma append_objects_of_items (parts : list string) (items : list item) :
  Objects.append_objects parts (map Objects.object_of items)
  = Return (parts ++ map (fun it => format_model (model_of it)) items)%list.
Proof.
  revert parts. induction items as [|it items IH]; intros parts.
  - cbn. by rewrite app_nil_r.
  - cbn [map Objects.append_objects].
    replace (Objects.model_instance_of (Objects.object_of it))
      with (Return (A := model_instance) (model_of it)) by by destruct it.
    rewrite IH. by rewrite <- app_assoc.
Qed.

Lemma append_categories_of_results (parts : list string) (r : results) :
  Objects.append_categories parts (Objects.objects_of r)
  = Return (parts ++ flat_map category_parts r)%list.
Proof.
  revert parts. induction r as [|[category items] r IH]; intros parts.
  - cbn. by rewrite app_nil_r.
  - cbn [Objects.objects_of map Objects.append_categories flat_map fst snd].
    fold (Objects.objects_of r).
    destruct items as [|it items].
    + cbn [map]. rewrite IH. done.
    + change (map Objects.object_of (it :: items))
        with (Objects.object_of it :: map Objects.object_of items).
      change (Objects.object_of it :: map Objects.object_of items)
        with (map Objects.object_of (it :: items)).
      destruct (map Objects.object_of (it :: items)) as [|o os] eqn:Ho;
        [done |].
      rewrite <- Ho, append_objects_of_items, IH.
      unfold category_parts. cbn [fst snd].
      by rewrite <- !app_assoc.
Qed.

Lemma format_objects_of_results (r : results) :
  Objects.format_objects (Objects.objects_of r)
  = Return (_format_main_results r).
Proof.
  rewrite format_main_results_parts, formatted_parts_flat.
  destruct r as [|entry r]; [done |].
  unfold Objects.format_objects.
  change (Objects.objects_of (entry :: r))
    with ((fst entry, map Objects.object_of (snd entry))
            :: Objects.objects_of r).
  change ((fst entry, map Objects.object_of (snd entry))
            :: Objects.objects_of r)
    with (Objects.objects_of (entry :: r)).
  rewrite append_categories_of_results. cbn [app].
  by destruct (flat_map category_parts (entry :: r)).
Qed.

(** C9 (as amended).  The formatted text is a function of the
    categories, their order and the records that line 41 takes from the
    entries: two Result Sets with the same categories and records give the
    same text whatever the scores paired with the records are.  An entry
    given as the bare record gives the same line as the (record, score)
    pair when the record is not itself a tuple; of a record that is a
    tuple instance the formatter takes the first element instead. *)
Theorem format_ignores_scores :
  (forall r1 r2 : list (string * list Objects.pyobject),
      object_records r1 = object_records r2 ->
      Objects.format_objects r1 = Objects.format_objects r2)
  /\ (forall (m : model_instance) (score : pyfloat),
         Objects.model_instance_of (Objects.pair m score) = Return m)
  /\ (forall m : model_instance,
         Objects.model_instance_of (Objects.Plain m) = Return m)
  /\ (forall (m first : model_instance) (rest : list model_instance),
         Objects.model_instance_of (Objects.NamedTuple m (first :: rest))
         = Return first)
  /\ (forall (c : string) (before after : list Objects.pyobject)
             (m : model_instance) (score : pyfloat),
         Objects.format_objects [(c, (before ++ Objects.Plain m :: after)%list)]
         = Objects.format_objects
             [(c, (before ++ Objects.pair m score :: after)%list)])
  /\ (forall r1 r2 : results,
         records_of r1 = records_of r2 ->
         _format_main_results r1 = _format_main_results r2)
  /\ (forall r : results, _format_main_results (bare r) = _format_main_results r)
  /\ (forall r : results,
         Objects.format_objects (Objects.objects_of r)
         = Return (_format_main_results r)).
Proof.
  split; [| repeat split; try done].
  - intros r1 r2 H. by rewrite !format_objects_records, H.
  - intros c before after m score. rewrite !format_objects_records.
    unfold object_records. cbn [map fst snd]. by rewrite !map_app.
  - intros r1 r2 H. by rewrite !format_by_records, H.
  - intros r. by rewrite !format_by_records, records_of_bare.
  - apply format_objects_of_results.
Qed.

Lemma format_ignores_scores_witness :
  let m := {| title := Some "Birthday gift";
              description := Some "received a bicycle";
              name := None; content := None; str := "Event" |} in
  Objects.format_objects [("Event", [Objects.pair m (Float "0.91")])]
  = Objects.format_objects [("Event", [Objects.pair m (Float "0.12")])]
  /\ _format_main_results [("Event", [Tuple m (Float "0.91")])]
     = _format_main_results [("Event", [Tuple m (Float "0.12")])].
Proof.
  intros m. split.
  - apply (proj1 format_ignores_scores). reflexivity.
  - apply (proj1 (proj2 (proj2 (proj2 (proj2 (proj2 format_ignores_scores)))))).
    reflexivity.
Defined.

(** The claim C9 as it was stated fails for a record that is itself a
    tuple instance (a named tuple with the fields title and description):
    in a (record, score) pair it is rendered by its title and description,
    given bare it is taken apart and its first field is rendered. *)
Lemma tuple_record_counterexample :
  let field (text : string) :=
    {| title := Some "<built-in method title of str object>";
       description := None; name := None; content := None; str := text |} in
  let event :=
    {| title := Some "Birthday gift";
       description := Some "received a bicycle";
       name := None; content := None;
       str := "Event(title='Birthday gift', description='received a bicycle')" |} in
  let record :=
    Objects.NamedTuple event [field "Birthday gift"; field "received a bicycle"] in
  Objects.format_objects [("Event", [Objects.pair event (Float "0.91")])]
  = Return (header "Event" +:+ nl +:+ "• Birthday gift: received a bicycle")
  /\ Objects.format_objects [("Event", [record])]
     = Return (header "Event" +:+ nl +:+ "• Birthday gift")
  /\ Objects.format_objects [("Event", [record])]
     <> Objects.format_objects [("Event", [Objects.pair event (Float "0.91")])].
Proof.
  intros field event record. split; [reflexivity |]. split; [reflexivity |].
  vm_compute. discriminate.
Defined.

Lemma all_empty_no_parts (r : results) :
  Forall (fun entry => snd entry = []) r -> formatted_parts r = [].
Proof.
  rewrite formatted_parts_flat.
  induction 1 as [|[category items] r Hitems _ IH]; [done |].
  cbn [flat_map]. rewrite IH. unfold category_parts.
  cbn [snd] in *. by rewrite Hitems.
Qed.

Lemma header_in_parts (r : results) (c : string) :
  In (header c) (formatted_parts r)
  <-> exists items, In (c, items) r /\ items <> [].
Proof.
  rewrite formatted_parts_flat, in_flat_map. split.
  - intros [[c' items] [Hin Hparts]]. unfold category_parts in Hparts.
    cbn [fst snd] in Hparts. destruct items as [|it items]; [done |].
    destruct Hparts as [Hhead | Hline].
    + apply header_inj in Hhead as ->. by exists (it :: items).
    + apply in_map_iff in Hline as [it' [Heq _]].
      by destruct (header_not_line c (model_of it')).
  - intros [items [Hin Hne]]. exists (c, items). split; [done |].
    destruct items as [|it items]; [done |]. by left.
Qed.

(** C10.  When every category of a Result Set has an empty list, the
    formatter emits nothing, neither header nor record line, and returns
    the sentinel "No relevant information found."; in general the header
    of a category is among the emitted parts exactly when the category
    has a non-empty list. *)
Theorem format_empty_categories :
  (forall r : results,
      Forall (fun entry => snd entry = []) r ->
      formatted_parts r = []
      /\ _format_main_results r = "No relevant information found.")
  /\ (forall (r : results) (c : string),
         In (header c) (formatted_parts r)
         <-> exists items, In (c, items) r /\ items <> []).
Proof.
  split.
  - intros r H. pose proof (all_empty_no_parts r H) as Hparts.
    split; [done |]. by rewrite format_main_results_parts, Hparts.
  - apply header_in_parts.
Qed.

Lemma format_empty_categories_witness :
  formatted_parts [("Event", []); ("Person", [])] = []
  /\ _format_main_results [("Event", []); ("Person", [])]
     = "No relevant information found.".
Proof.
  apply (proj1 format_empty_categories). repeat constructor.
Defined.

End FormatterScores.

(** ** The chat call and the session *)

Section Session.
Import MentisChat Main.

Variable mentisPrompt : string.

(** C5.  When the call of the language model raises, the answer is the
    inline text "Error generating response: " followed by the message of
    the error, for every query and every context; so a chat call whose
    retrieval returned gives that text back instead of raising. *)
Theorem generation_error_is_inline (s : self) (user_query : string)
        (e : exception) :
  (forall context : string,
      generate s (prompt mentisPrompt user_query context) = Raise e ->
      _generate_answer mentisPrompt s user_query context
      = Return ("Error generating response: " +:+ exc_str e))
  /\ (forall o : retrieval_output,
         retrieve s user_query = Return o ->
         generate s (prompt mentisPrompt user_query
                            (_format_main_results (main_results o)))
         = Raise e ->
         chat mentisPrompt s user_query
         = Return ("Error generating response: " +:+ exc_str e)).
Proof.
  split.
  - intros context H. unfold _generate_answer. by rewrite H.
  - intros o Hr Hg. unfold chat, _generate_answer. by rewrite Hr, Hg.
Qed.

(** Whatever the block does and however it ends, [__exit__] leaves the
    connections as the block left them. *)
Lemma with_MentisChat_connections {A : Type}
      (body : connections -> outcome A * connections) (c : connections) :
  snd (with_MentisChat body c) = snd (body (__init__ c)).
Proof.
  unfold with_MentisChat, __enter__, __exit__.
  by destruct (body (__init__ c)) as [[a|e] after].
Qed.

(** C6 (what the code does).  The exit handler of the session releases
    nothing: after a session that the user ends with "quit", and after a
    block left by an exception, both connections acquired at the start
    are still open. *)
Theorem session_exit_releases_nothing (mentis : self) (c : connections) :
  main mentisPrompt mentis (Some "user") (Some "key") [Line "quit"] c
  = (Return ((banner ++ [Print "=K Goodbye from Mentis!"])%list, Some tt),
     {| vector_store_open := true; llm_client_open := true |})
  /\ (forall e : exception,
         with_MentisChat (A := unit) (fun c' => (Raise e, c')) c
         = (Raise e,
            {| vector_store_open := true; llm_client_open := true |}))
  /\ (forall (c' : connections) (exc : option exception),
         __exit__ c' exc = c').
Proof. by repeat split. Qed.

End Session.

Lemma generation_error_is_inline_witness :
  let s := {| MentisChat.retrieve := fun _ => Return (MentisChat.Dict None);
              MentisChat.generate :=
                fun _ => Raise (Exc OtherException "rate limit") |} in
  MentisChat._generate_answer "You are Mentis." s "What did I do?"
                              "No relevant information found."
  = Return "Error generating response: rate limit"
  /\ MentisChat.chat "You are Mentis." s "What did I do?"
     = Return "Error generating response: rate limit".
Proof.
  intros s.
  pose proof (generation_error_is_inline
                "You are Mentis." s "What did I do?"
                (Exc OtherException "rate limit")) as [Hanswer Hchat].
  split.
  - apply Hanswer. reflexivity.
  - apply (Hchat (MentisChat.Dict None)); reflexivity.
Defined.

(** ** The command-line loop *)

Section CommandLine.
Import MentisChat Main.

Variable mentisPrompt : string.
Variable mentis : self.

Lemma iteration_exit (text : string) :
  lower (strip text) ∈ exit_tokens ->
  iteration mentisPrompt mentis (Line text)
  = ([Print "=K Goodbye from Mentis!"], Break).
Proof. intros H. unfold iteration. by rewrite decide_True. Qed.

Lemma iteration_empty (text : string) :
  strip text = "" ->
  iteration mentisPrompt mentis (Line text)
  = ([Print "Please enter a question."], Continue).
Proof.
  intros H. unfold iteration. rewrite H.
  rewrite decide_False; [done |].
  intros Hin. vm_compute in Hin.
  repeat (apply elem_of_cons in Hin as [Hin | Hin]; [discriminate |]).
  by apply elem_of_nil in Hin.
Qed.

Lemma iteration_query (text : string) :
  lower (strip text) ∉ exit_tokens ->
  strip text <> "" ->
  iteration mentisPrompt mentis (Line text)
  = (analysing :: Chat (strip text)
       :: match chat mentisPrompt mentis (strip text) with
          | Return response => response_block response
          | Raise e => error_report e
          end,
     Continue).
Proof.
  intros Hexit Hempty. unfold iteration.
  by rewrite decide_False, decide_False.
Qed.

(** C7 (as amended).  A line that, trimmed and lowered, is one of
    "quit", "exit" and "q" ends the loop, whatever follows, with no
    query submitted.  A line that is empty once trimmed is answered by
    "Please enter a question.": the loop goes on and no query is
    submitted.  Every other line is submitted, trimmed, as one query;
    when the chat call returns, the response block with the response is
    printed; when it raises, the error and "Please try again." are
    printed instead; in both cases the loop goes on. *)
Theorem command_line_lines :
  (forall (text : string) (rest : list input_event),
      lower (strip text) ∈ exit_tokens ->
      iteration mentisPrompt mentis (Line text)
      = ([Print "=K Goodbye from Mentis!"], Break)
      /\ loop mentisPrompt mentis (Line text :: rest)
         = ([Print "=K Goodbye from Mentis!"], Some tt))
  /\ (forall text : string,
         strip text = "" ->
         iteration mentisPrompt mentis (Line text)
         = ([Print "Please enter a question."], Continue))
  /\ (forall text response : string,
         lower (strip text) ∉ exit_tokens ->
         strip text <> "" ->
         chat mentisPrompt mentis (strip text) = Return response ->
         iteration mentisPrompt mentis (Line text)
         = (analysing :: Chat (strip text) :: response_block response,
            Continue))
  /\ (forall (text : string) (e : exception),
         lower (strip text) ∉ exit_tokens ->
         strip text <> "" ->
         chat mentisPrompt mentis (strip text) = Raise e ->
         iteration mentisPrompt mentis (Line text)
         = (analysing :: Chat (strip text) :: error_report e, Continue)).
Proof.
  repeat split.
  - by apply iteration_exit.
  - cbn [loop]. by rewrite iteration_exit.
  - apply iteration_empty.
  - intros text response H1 H2 H3. by rewrite iteration_query, H3.
  - intros text e H1 H2 H3. by rewrite iteration_query, H3.
Qed.

End CommandLine.

Lemma command_line_lines_witness :
  let mentis :=
    {| MentisChat.retrieve := fun _ => Return (MentisChat.Dict None);
       MentisChat.generate := fun _ => Return "You went cycling." |} in
  let failing :=
    {| MentisChat.retrieve := fun _ => Raise (Exc OtherException "timeout");
       MentisChat.generate := fun _ => Return "You went cycling." |} in
  Main.loop "" mentis [Main.Line "  QUIT "; Main.Line "never read"]
  = ([Main.Print "=K Goodbye from Mentis!"], Some tt)
  /\ Main.iteration "" mentis (Main.Line "   ")
     = ([Main.Print "Please enter a question."], Main.Continue)
  /\ Main.iteration "" mentis (Main.Line " What did I do? ")
     = (Main.analysing :: Main.Chat "What did I do?"
          :: Main.response_block "You went cycling.",
        Main.Continue)
  /\ Main.iteration "" failing (Main.Line " What did I do? ")
     = (Main.analysing :: Main.Chat "What did I do?"
          :: Main.error_report (Exc OtherException "timeout"),
        Main.Continue).
Proof.
  intros mentis failing.
  assert (Hquery : lower (strip " What did I do? ") ∉ Main.exit_tokens).
  { apply (proj1 (bool_decide_eq_false _)). vm_compute. reflexivity. }
  split; [| split; [| split]].
  - apply (proj1 (command_line_lines "" mentis)).
    apply (bool_decide_unpack _). vm_compute. exact I.
  - apply (proj1 (proj2 (command_line_lines "" mentis))). reflexivity.
  - apply (proj1 (proj2 (proj2 (command_line_lines "" mentis)))
             " What did I do? " "You went cycling.");
      [exact Hquery | discriminate | reflexivity].
  - apply (proj2 (proj2 (proj2 (command_line_lines "" failing)))
             " What did I do? " (Exc OtherException "timeout"));
      [exact Hquery | discriminate | reflexivity].
Defined.

(** The claim C7 as it was stated fails where the chat call raises: the
    line "hello" is neither an exit token nor empty, and what is printed for
    it is the error report, with no response block. *)
Lemma response_block_counterexample :
  let failing :=
    {| MentisChat.retrieve :=
         fun _ => Raise (Exc OtherException "vector store unreachable");
       MentisChat.generate := fun _ => Return "answer" |} in
  (lower (strip "hello") ∉ Main.exit_tokens)
  /\ strip "hello" <> ""
  /\ Main.iteration "" failing (Main.Line "hello")
     = ([Main.analysing; Main.Chat "hello";
         Main.Print "L Error: vector store unreachable";
         Main.Print ("Please try again." +:+ nl)],
        Main.Continue)
  /\ ~ (exists response : string,
           forall ev, In ev (Main.response_block response) ->
                      In ev (fst (Main.iteration "" failing (Main.Line "hello")))).
Proof.
  intros failing. split; [| split; [| split]].
  - apply (proj1 (bool_decide_eq_false _)). vm_compute. reflexivity.
  - discriminate.
  - reflexivity.
  - intros [response H].
    specialize (H (Main.Print "=🧠 MENTIS RESPONSE")).
    vm_compute in H.
    destruct H as [H | [H | [H | [H | []]]]]; [tauto | discriminate..].
Defined.

(** ** The dataset of an evaluation *)

Section Dataset.
Import RetrievalEvaluator Spec.

Variable r : retriever.
Variable top_k : nat.

Lemma combine_fst_snd {A B : Type} (l : list (A * B)) :
  combine (map fst l) (map snd l) = l.
Proof. induction l as [|[a b] l IH]; simpl; [done | by rewrite IH]. Qed.

Lemma collect_adapter (queries : list string) (d : eval_data) :
  collect (adapter_retrieve r) queries top_k d
  = Return
      {| user_input :=
           (user_input d ++ map fst (valid_rows r queries top_k))%list;
         retrieved_contexts :=
           (retrieved_contexts d ++ map snd (valid_rows r queries top_k))%list |}.
Proof.
  revert d. induction queries as [|query queries IH]; intros d.
  - simpl. rewrite !app_nil_r. by destruct d.
  - cbn [collect valid_rows flat_map]. unfold adapter_retrieve at 1.
    fold (valid_rows r queries top_k).
    destruct (r query top_k) as [[|doc docs]|e]; rewrite IH; cbn;
      by rewrite <- ?app_assoc.
Qed.

Lemma create_ragas_dataset_adapter (queries : list string) :
  create_ragas_dataset (adapter_retrieve r) queries top_k
  = Return (valid_rows r queries top_k).
Proof.
  unfold create_ragas_dataset. rewrite collect_adapter.
  unfold from_dict. cbn. by rewrite combine_fst_snd.
Qed.


End Dataset.

(** ** Reading the scores *)

Section Scores.
Import RetrievalEvaluator Spec.

Variable float_of_str : string -> option pyfloat.
Variable metric_names : list string.

Lemma setitem_setitem {V : Type} (d : pydict V) (key : string) (v w : V) :
  setitem (setitem d key v) key w = setitem d key w.
Proof.
  induction d as [|[k x] d IH]; cbn.
  - by rewrite String.eqb_refl.
  - destruct (String.eqb k key) eqn:Hk; cbn; rewrite Hk; [done |].
    by rewrite IH.
Qed.

(** The inner [try] never raises, and all it may do to the record is to
    store a score under the one key. *)
Lemma extract_scores_shape (results : evaluation_result) (d : record) :
  extract_scores float_of_str results d = (Return tt, d)
  \/ exists f : pyfloat,
      extract_scores float_of_str results d
      = (Return tt, setitem d score_key (VFloat f)).
Proof.
  unfold extract_scores, try_except, bind, score_from_text,
    score_from_item, try_except, bind, lift, store, ret, float_of_obj,
    float_of_text, any_exception.
  destruct (has_getitem results); [| by left].
  destruct (result_str results) as [raw|e]; [| by left].
  destruct (contains score_key raw); [destruct (re_search raw) as [g|] |].
  - destruct (float_of_str g) as [f|]; [| by left].
    destruct (getitem results score_key) as [[f'|s|]|e'].
    + right. exists f'. by rewrite setitem_setitem.
    + destruct (float_of_str s) as [f'|].
      * right. exists f'. by rewrite setitem_setitem.
      * cbn. right. by exists f.
    + cbn. right. by exists f.
    + destruct (one_of [KeyError; TypeError] e'); right; by exists f.
  - destruct (getitem results score_key) as [[f'|s|]|e'].
    + right. by exists f'.
    + destruct (float_of_str s) as [f'|]; [right; by exists f' | by left].
    + by left.
    + destruct (one_of [KeyError; TypeError] e'); by left.
  - destruct (getitem results score_key) as [[f'|s|]|e'].
    + right. by exists f'.
    + destruct (float_of_str s) as [f'|]; [right; by exists f' | by left].
    + by left.
    + destruct (one_of [KeyError; TypeError] e'); by left.
Qed.

(** The handler that stores the 0.0 defaults is never the one that
    decides: the [try] block of lines 126 to 158 behaves as its body. *)
Lemma process_results_body (retriever_name : string)
      (dataset : list sample) (results : evaluation_result) (d : record) :
  process_results float_of_str metric_names retriever_name dataset results d
  = (summary retriever_name dataset results ;;;
     extract_scores float_of_str results) d.
Proof.
  unfold process_results, try_except, bind, summary, bind, lift, assign.
  destruct (result_str results) as [raw|e].
  - match goal with
    | |- context [extract_scores _ _ ?d0] =>
      destruct (extract_scores_shape results d0) as [H | [f H]]
    end; by rewrite H.
  - by destruct (one_of _ e).
Qed.

End Scores.

Section ScoresClaim.
Import RetrievalEvaluator Spec.

(** C4 (what the code does).  When the scores cannot be read out of the
    library's result, no exception leaves [evaluate_retriever] and the
    run goes on to the next retriever, but the record gets no default:
    the handler storing 0.0 for each metric never decides the outcome,
    and the record holds only the retriever name, the number of queries
    and the printed result. *)
Theorem extraction_failure_stores_no_default
        (float_of_str : string -> option pyfloat) :
  (forall metric_names retriever_name dataset results d,
      process_results float_of_str metric_names retriever_name dataset
                      results d
      = (summary retriever_name dataset results ;;;
         extract_scores float_of_str results) d)
  /\ (forall metric_names retriever_name raw item r queries,
         evaluate_retriever
           float_of_str
           (fun _ => Return {| result_str := Return raw;
                               has_getitem := false;
                               getitem := item |})
           metric_names retriever_name (adapter_retrieve r) queries
         = match valid_rows r queries 5 with
           | [] => error_record "No valid data"
           | dataset => summary_record retriever_name (length dataset) raw
           end)
  /\ (let results :=
        {| result_str := Return "<EvaluationResult>";
           has_getitem := true;
           getitem := fun key => Raise (Exc KeyError key) |} in
      run_evaluation float_of_str (fun _ => Return results) [score_key]
                     ["What did I do?"]
                     [ ("simple_rag", fun _ _ => Return ["chunk1"]);
                       ("summary_rag", fun _ _ => Return ["chunk2"]) ]
      = [ ("simple_rag",
           summary_record "simple_rag" 1 "<EvaluationResult>");
          ("summary_rag",
           summary_record "summary_rag" 1 "<EvaluationResult>") ])
  /\ get score_key (summary_record "simple_rag" 1 "<EvaluationResult>")
     = None.
Proof.
  split; [intros; apply process_results_body |].
  split; [| split; reflexivity].
  intros metric_names retriever_name raw item r queries.
  unfold evaluate_retriever. rewrite create_ragas_dataset_adapter.
  by destruct (valid_rows r queries 5).
Qed.

End ScoresClaim.

(** ** The saved files *)

Section Files.
Import RetrievalEvaluator Spec.

Lemma output_file_inj (output_dir name1 name2 : string) :
  output_file output_dir name1 = output_file output_dir name2 ->
  name1 = name2.
Proof.
  unfold output_file, path_join.
  change (String.prefix "/" ("results_" +:+ name1 +:+ ".json")) with false.
  change (String.prefix "/" ("results_" +:+ name2 +:+ ".json")) with false.
  cbv iota. intros H.
  destruct (String.eqb output_dir "" || String.prefix "/" (String.rev output_dir)).
  - apply String.app_inj in H. apply String.app_inj in H.
    by apply string_app_inj_r in H.
  - apply String.app_inj in H. apply String.app_inj in H.
    apply String.app_inj in H. by apply string_app_inj_r in H.
Qed.

Lemma nodup_keys_functional {V : Type} (d : pydict V) (key : string)
      (v w : V) :
  NoDup (map fst d) -> In (key, v) d -> In (key, w) d -> v = w.
Proof.
  induction d as [|[k x] d IH]; [done |].
  cbn [map fst]. intros [Hk Hd]%NoDup_cons [Hv | Hv] [Hw | Hw].
  - congruence.
  - injection Hv as -> ->. destruct Hk.
    apply list_elem_of_In, in_map_iff. by exists (key, w).
  - injection Hw as -> ->. destruct Hk.
    apply list_elem_of_In, in_map_iff. by exists (key, v).
  - by apply IH.
Qed.

Lemma save_results_other (results : pydict record) (output_dir : string)
      (files : gmap string string) (path : string) :
  (forall name result,
      In (name, result) results -> contains_key "error" result = false ->
      path <> output_file output_dir name) ->
  save_results results output_dir files !! path = files !! path.
Proof.
  revert files. induction results as [|[name result] results IH];
    intros files H; [done |].
  unfold save_results in *. cbn [fold_left].
  rewrite IH by (intros n r' Hin; apply H; by right).
  destruct (contains_key "error" result) eqn:He; [done |].
  rewrite lookup_insert_ne; [done |].
  intros Heq. by apply (H name result); [left | | ].
Qed.

Lemma save_results_written (results : pydict record) (output_dir : string)
      (files : gmap string string) (name : string) (result : record) :
  NoDup (map fst results) ->
  In (name, result) results -> contains_key "error" result = false ->
  save_results results output_dir files !! output_file output_dir name
  = Some (dumps result).
Proof.
  revert files. induction results as [|[n r'] results IH];
    intros files Hnd Hin He; [done |].
  cbn [map fst] in Hnd. apply NoDup_cons in Hnd as [Hn Hnd].
  destruct Hin as [[= -> ->] | Hin].
  - unfold save_results. cbn [fold_left]. rewrite He.
    fold (save_results results output_dir
            (<[output_file output_dir name := dumps result]> files)).
    rewrite save_results_other; [by rewrite lookup_insert_eq |].
    intros n' r'' Hin' _ Heq. apply output_file_inj in Heq as <-.
    apply Hn, list_elem_of_In, in_map_iff. by exists (name, r'').
  - unfold save_results in *. cbn [fold_left]. by apply IH.
Qed.

Lemma escape_non_ascii (a : ascii) :
  (128 <=? N_of_ascii a)%N = true -> escape a = String a "".
Proof.
  intros H%N.leb_le. unfold escape.
  repeat match goal with
         | |- context [(?n =? ?k)%N] =>
           destruct (N.eqb_spec n k) as [Heq|_]; [lia |]
         | |- context [(?n <? ?k)%N] =>
           destruct (N.ltb_spec n k) as [Hlt|_]; [lia |]
         end.
  done.
Qed.

End Files.

Section FilesClaim.
Import RetrievalEvaluator Spec.

(** What [evaluate_retriever] returns is an error record, or the
    retriever name, the number of rows and the printed result, followed
    by the score when one was read. *)
Lemma evaluate_retriever_shapes float_of_str evaluate metric_names
      (retriever_name : string)
      (retrieve : string -> nat -> outcome (list string))
      (queries : list string) :
  let result :=
    evaluate_retriever float_of_str evaluate metric_names retriever_name
                       retrieve queries in
  (exists message, result = error_record message)
  \/ (exists dataset raw,
         create_ragas_dataset retrieve queries 5 = Return dataset
         /\ (result = summary_record retriever_name (length dataset) raw
             \/ exists f,
                 result
                 = (summary_record retriever_name (length dataset) raw
                      ++ [(score_key, VFloat f)])%list)).
Proof.
  unfold evaluate_retriever.
  destruct (create_ragas_dataset retrieve queries 5) as [dataset|e];
    [| left; by eexists].
  destruct dataset as [|row rows]; [left; by eexists |].
  destruct (evaluate (row :: rows)) as [results|e]; [| left; by eexists].
  rewrite process_results_body. unfold bind, summary, bind, lift, assign.
  destruct (result_str results) as [raw|e]; [| left; by eexists].
  right. exists (row :: rows), raw. split; [done |].
  fold (summary_record retriever_name (length (row :: rows)) raw).
  destruct (extract_scores_shape
              float_of_str results
              (summary_record retriever_name (length (row :: rows)) raw))
    as [H | [f H]]; rewrite H; [by left | right; by exists f].
Qed.

Lemma save_entries_ok (open_w : string -> outcome unit)
      (results : pydict record) (output_dir : string)
      (files : gmap string string) :
  (forall name result,
      In (name, result) results -> contains_key "error" result = false ->
      open_w (output_file output_dir name) = Return tt) ->
  Disk.save_entries open_w results output_dir files
  = (save_results results output_dir files, Return tt).
Proof.
  revert files. induction results as [|[name result] results IH];
    intros files Hopen; [done |].
  cbn [Disk.save_entries]. unfold save_results. cbn [fold_left].
  destruct (contains_key "error" result) eqn:He.
  - apply IH. intros n r' Hin. apply Hopen. by right.
  - rewrite (Hopen name result) by (by left || done).
    apply IH. intros n r' Hin. apply Hopen. by right.
Qed.

Lemma disk_save_results_ok (makedirs open_w : string -> outcome unit)
      (results : pydict record) (output_dir : string)
      (files : gmap string string) :
  output_dir <> "" ->
  makedirs output_dir = Return tt ->
  (forall name result,
      In (name, result) results -> contains_key "error" result = false ->
      open_w (output_file output_dir name) = Return tt) ->
  Disk.save_results makedirs open_w results output_dir files
  = (save_results results output_dir files, Return tt).
Proof.
  intros Hdir Hmk Hopen. unfold Disk.save_results, Disk.os_makedirs.
  destruct (String.eqb_spec output_dir "") as [-> | _]; [done |].
  rewrite Hmk. by apply save_entries_ok.
Qed.






End FilesClaim.



(** * Further properties *)

(** ** The formatted text as a whole *)

Section FormatterText.
Import MentisChat Spec.

Lemma header_cons (c : string) :
  header c = String "010" ("--- " +:+ c +:+ " ---").
Proof. reflexivity. Qed.

Lemma format_model_cons (m : model_instance) :
  exists rest, format_model m = String "226" rest.
Proof.
  unfold format_model.
  destruct (title m), (description m), (name m), (content m);
    eexists; reflexivity.
Qed.

Lemma parts_not_empty (r : results) (part : string) :
  In part (formatted_parts r) -> part <> "".
Proof.
  rewrite formatted_parts_flat, in_flat_map.
  intros [[c items] [_ Hin]]. unfold category_parts in Hin.
  cbn [fst snd] in Hin. destruct items as [|it items]; [done |].
  destruct Hin as [<- | Hin]; [by rewrite header_cons |].
  apply in_map_iff in Hin as [it' [<- _]].
  by destruct (format_model_cons (model_of it')) as [rest ->].
Qed.

Lemma join_not_empty (sep part : string) (parts : list string) :
  part <> "" -> join sep (part :: parts) <> "".
Proof.
  intros H. destruct part as [|a part]; [done |].
  destruct parts; cbn [join]; by rewrite ?string_app_cons.
Qed.

Lemma join_app (sep : string) (l1 l2 : list string) :
  l1 <> [] -> l2 <> [] ->
  join sep (l1 ++ l2)%list = join sep l1 +:+ sep +:+ join sep l2.
Proof.
  intros H1 H2. induction l1 as [|x l1 IH]; [done |].
  destruct l1 as [|y l1].
  - destruct l2 as [|z l2]; [done | reflexivity].
  - change (join sep ((x :: y :: l1) ++ l2)%list)
      with (x +:+ sep +:+ join sep ((y :: l1) ++ l2)%list).
    rewrite IH by done.
    change (join sep (x :: y :: l1)) with (x +:+ sep +:+ join sep (y :: l1)).
    by rewrite !string_app_assoc.
Qed.

Lemma formatted_parts_app (r1 r2 : results) :
  formatted_parts (r1 ++ r2)%list = (formatted_parts r1 ++ formatted_parts r2)%list.
Proof. rewrite !formatted_parts_flat. apply flat_map_app. Qed.

Lemma first_part_is_header (r : results) (part : string)
      (parts : list string) :
  formatted_parts r = part :: parts ->
  exists c items, In (c, items) r /\ items <> [] /\ part = header c.
Proof.
  rewrite formatted_parts_flat.
  induction r as [|[c items] r IH]; [done |]. cbn [flat_map].
  destruct items as [|it items].
  - unfold category_parts at 1. cbn [snd app]. intros H.
    destruct (IH H) as (c' & items' & Hin & Hne & ->).
    exists c', items'. split; [by right | done].
  - unfold category_parts at 1. cbn [fst snd app]. intros [= <- _].
    exists c, (it :: items). split; [by left | done].
Qed.

Lemma join_cons (sep part : string) (parts : list string) :
  exists rest, join sep (part :: parts) = part +:+ rest.
Proof.
  destruct parts as [|p parts].
  - exists "". cbn [join]. induction part as [|a part IH]; [done |].
    rewrite string_app_cons. by rewrite <- IH.
  - by exists (sep +:+ join sep (p :: parts)).
Qed.

(** X1.  Whatever the Result Set, the formatter never returns the empty
    string: the text is the sentinel, when no category has an entry, or
    starts with the header of a category that has entries. *)
Theorem format_never_empty (r : results) :
  _format_main_results r <> ""
  /\ ((formatted_parts r = []
       /\ _format_main_results r = "No relevant information found.")
      \/ exists c items rest,
          In (c, items) r /\ items <> []
          /\ _format_main_results r = header c +:+ rest).
Proof.
  rewrite format_main_results_parts. split.
  - destruct (formatted_parts r) as [|part parts] eqn:H; [done |].
    apply join_not_empty, (parts_not_empty r). rewrite H. by left.
  - destruct (formatted_parts r) as [|part parts] eqn:H; [by left |].
    right. destruct (first_part_is_header r part parts H)
      as (c & items & Hin & Hne & ->).
    destruct (join_cons nl (header c) parts) as [rest Hrest].
    by exists c, items, rest.
Qed.

(** X2.  The text of two Result Sets put one after the other is the text
    of the first, a newline, and the text of the second, when both have a
    category with entries; a Result Set with only empty categories adds
    nothing on either side. *)
Theorem format_of_concatenation (r1 r2 : results) :
  (formatted_parts r1 <> [] -> formatted_parts r2 <> [] ->
   _format_main_results (r1 ++ r2)%list
   = _format_main_results r1 +:+ nl +:+ _format_main_results r2)
  /\ (formatted_parts r1 = [] ->
      _format_main_results (r1 ++ r2)%list = _format_main_results r2)
  /\ (formatted_parts r2 = [] ->
      _format_main_results (r1 ++ r2)%list = _format_main_results r1).
Proof.
  rewrite !format_main_results_parts, formatted_parts_app.
  split; [| split].
  - intros H1 H2.
    destruct (formatted_parts r1) as [|p1 l1]; [done |].
    destruct (formatted_parts r2) as [|p2 l2]; [done |].
    by rewrite <- join_app.
  - by intros ->.
  - intros ->. by rewrite app_nil_r.
Qed.

(** X3.  The parts of the text are exactly the headers of the categories
    that have entries and the lines of their entries: no entry is dropped
    and nothing else is emitted. *)
Theorem formatted_parts_complete (r : results) (part : string) :
  In part (formatted_parts r)
  <-> (exists c items, In (c, items) r /\ items <> [] /\ part = header c)
      \/ (exists c items it,
             In (c, items) r /\ In it items
             /\ part = format_model (model_of it)).
Proof.
  rewrite formatted_parts_flat, in_flat_map. split.
  - intros [[c items] [Hr Hin]]. unfold category_parts in Hin.
    cbn [fst snd] in Hin. destruct items as [|it items]; [done |].
    destruct Hin as [<- | Hin].
    + left. by exists c, (it :: items).
    + apply in_map_iff in Hin as [it' [<- Hit]].
      right. by exists c, (it :: items), it'.
  - intros [(c & items & Hr & Hne & ->) | (c & items & it & Hr & Hit & ->)];
      exists (c, items); (split; [done |]); unfold category_parts;
      cbn [fst snd]; destruct items as [|it0 items]; try done.
    + by left.
    + right. apply in_map_iff. by exists it.
Qed.

End FormatterText.

Lemma format_of_concatenation_witness :
  let m := {| MentisChat.title := Some "Walk"; MentisChat.description := Some "in the park";
              MentisChat.name := None; MentisChat.content := None;
              MentisChat.str := "Event" |} in
  let r1 := [("Event", [MentisChat.Bare m])] in
  let r2 := [("Person", [MentisChat.Bare m])] in
  MentisChat._format_main_results (r1 ++ r2)%list
  = MentisChat._format_main_results r1 +:+ nl
      +:+ MentisChat._format_main_results r2
  /\ MentisChat._format_main_results ([("Emotion", [])] ++ r2)%list
     = MentisChat._format_main_results r2
  /\ MentisChat._format_main_results (r1 ++ [("Emotion", [])])%list
     = MentisChat._format_main_results r1.
Proof.
  intros m r1 r2. split; [| split].
  - apply (proj1 (format_of_concatenation r1 r2)); discriminate.
  - apply (proj1 (proj2 (format_of_concatenation [("Emotion", [])] r2))).
    reflexivity.
  - apply (proj2 (proj2 (format_of_concatenation r1 [("Emotion", [])]))).
    reflexivity.
Defined.

(** ** The chat call as a whole *)

Section ChatCall.
Import MentisChat Spec.

Variable mentisPrompt : string.
Variable s : self.

Lemma generate_answer_returns (user_query context : string) :
  exists answer,
    _generate_answer mentisPrompt s user_query context = Return answer.
Proof.
  unfold _generate_answer.
  destruct (generate s (prompt mentisPrompt user_query context));
    by eexists.
Qed.


End ChatCall.


(** ** The loop as a whole *)

Section LoopRuns.
Import MentisChat Main Spec.

Variable mentisPrompt : string.
Variable mentis : self.

Lemma iteration_control (inp : input_event) :
  snd (iteration mentisPrompt mentis inp)
  = if stops inp then Break else Continue.
Proof.
  destruct inp as [text| |e]; [| done..].
  unfold iteration, stops.
  destruct (decide (lower (strip text) ∈ exit_tokens)) as [H|H].
  - by rewrite bool_decide_true.
  - rewrite bool_decide_false by done. by destruct (decide (strip text = "")).
Qed.

Lemma chat_calls_app (t1 t2 : list event) :
  chat_calls (t1 ++ t2) = (chat_calls t1 ++ chat_calls t2)%list.
Proof.
  induction t1 as [|[text|q] t1 IH]; cbn; [done | done | by rewrite IH].
Qed.

Lemma chat_calls_iteration (inp : input_event) :
  chat_calls (fst (iteration mentisPrompt mentis inp))
  = match inp with
    | Line text =>
      if stops inp then []
      else if decide (strip text = "") then [] else [strip text]
    | _ => []
    end.
Proof.
  destruct inp as [text| |e]; [| done..].
  unfold iteration, stops.
  destruct (decide (lower (strip text) ∈ exit_tokens)) as [H|H].
  - by rewrite bool_decide_true.
  - rewrite bool_decide_false by done.
    destruct (decide (strip text = "")); [done |].
    cbn [fst chat_calls analysing].
    by destruct (chat mentisPrompt mentis (strip text)).
Qed.

Lemma loop_cons (inp : input_event) (rest : list input_event) :
  loop mentisPrompt mentis (inp :: rest)
  = if stops inp then (fst (iteration mentisPrompt mentis inp), Some tt)
    else ((fst (iteration mentisPrompt mentis inp)
             ++ fst (loop mentisPrompt mentis rest))%list,
          snd (loop mentisPrompt mentis rest)).
Proof.
  cbn [loop]. pose proof (iteration_control inp) as H.
  destruct (iteration mentisPrompt mentis inp) as [out ctl]. cbn in H.
  subst ctl. destruct (stops inp); [done |].
  by destruct (loop mentisPrompt mentis rest).
Qed.

(** X7.  What follows the input that ends the loop is never read: the
    loop prints and calls the same whatever comes after it. *)
Theorem loop_ignores_the_rest (before rest : list input_event)
        (inp : input_event) :
  stops inp = true ->
  loop mentisPrompt mentis (before ++ inp :: rest)
  = loop mentisPrompt mentis (before ++ [inp]).
Proof.
  intros H. induction before as [|b before IH].
  - cbn [app]. by rewrite !loop_cons, H.
  - cbn [app]. rewrite !loop_cons. rewrite IH. done.
Qed.

Lemma chat_calls_loop (inputs : list input_event) :
  chat_calls (fst (loop mentisPrompt mentis inputs)) = queries_of inputs.
Proof.
  induction inputs as [|inp rest IH]; [done |].
  rewrite loop_cons. cbn [queries_of].
  pose proof (chat_calls_iteration inp) as H.
  destruct (stops inp) eqn:Hs.
  - cbn [fst]. rewrite H. by destruct inp.
  - cbn [fst]. rewrite chat_calls_app, H, IH.
    destruct inp as [text| |e]; [| done..].
    by destruct (decide (strip text = "")).
Qed.

Lemma queries_of_sound (inputs : list input_event) (user_query : string) :
  In user_query (queries_of inputs) ->
  user_query <> ""
  /\ (lower user_query ∉ exit_tokens)
  /\ exists text, In (Line text) inputs /\ user_query = strip text.
Proof.
  induction inputs as [|inp rest IH]; [done |]. cbn [queries_of].
  destruct (stops inp) eqn:Hs; [done |].
  assert (Hrest : In user_query (queries_of rest) ->
                  user_query <> ""
                  /\ (lower user_query ∉ exit_tokens)
                  /\ exists text, In (Line text) (inp :: rest)
                                  /\ user_query = strip text).
  { intros Hin. destruct (IH Hin) as (H1 & H2 & text & H3 & H4).
    repeat split; [done.. |]. exists text. split; [by right | done]. }
  destruct inp as [text| |e]; [| done..].
  destruct (decide (strip text = "")) as [He|He]; [done |].
  intros [<- | Hin]; [| by apply Hrest].
  repeat split; [done | |].
  - cbn [stops] in Hs. by apply bool_decide_eq_false in Hs.
  - exists text. split; [by left | done].
Qed.

(** X9.  The chat is never called with an empty query or with an exit
    token: every query it gets is the trimmed text of a line that was
    typed. *)
Theorem loop_queries_are_real (inputs : list input_event)
        (user_query : string) :
  In user_query (chat_calls (fst (loop mentisPrompt mentis inputs))) ->
  user_query <> ""
  /\ (lower user_query ∉ exit_tokens)
  /\ exists text, In (Line text) inputs /\ user_query = strip text.
Proof. rewrite chat_calls_loop. apply queries_of_sound. Qed.

End LoopRuns.

Lemma loop_ignores_the_rest_witness :
  let mentis :=
    {| MentisChat.retrieve := fun _ => Return (MentisChat.Dict None);
       MentisChat.generate := fun _ => Return "An answer." |} in
  Main.loop "" mentis
            ([Main.Line "What?"] ++ Main.Line " Exit " :: [Main.Line "ignored"])
  = Main.loop "" mentis ([Main.Line "What?"] ++ [Main.Line " Exit "]).
Proof.
  intros mentis.
  apply (loop_ignores_the_rest "" mentis [Main.Line "What?"]
                               [Main.Line "ignored"] (Main.Line " Exit ")).
  vm_compute. reflexivity.
Defined.

Lemma loop_queries_are_real_witness :
  let mentis :=
    {| MentisChat.retrieve := fun _ => Return (MentisChat.Dict None);
       MentisChat.generate := fun _ => Return "An answer." |} in
  "What?" <> ""
  /\ (lower "What?" ∉ Main.exit_tokens)
  /\ exists text,
      In (Main.Line text) [Main.Line "  "; Main.Line " What? "; Main.Line "q"]
      /\ "What?" = strip text.
Proof.
  intros mentis.
  apply (loop_queries_are_real
           "" mentis [Main.Line "  "; Main.Line " What? "; Main.Line "q"]).
  vm_compute. left. reflexivity.
Defined.

(** ** The loop under keyboard interrupts *)

Section InterruptedLoop.
Import MentisChat Main Spec.

Variable mentisPrompt : string.
Variable mentis : self.

Lemma chat_calls_firstn (k : nat) (l : list event) :
  chat_calls l = [] -> chat_calls (firstn k l) = [].
Proof.
  revert k. induction l as [|[text|q] l IH]; intros [|k] H; cbn; try done.
  by apply IH.
Qed.

Lemma under_way_prints (k : nat) (l : list event) :
  chat_calls l = [] -> Interrupts.under_way l k = [].
Proof.
  unfold Interrupts.under_way.
  revert k. induction l as [|[text|q] l IH]; intros [|k] H; cbn; try done.
  by apply IH.
Qed.

Lemma interrupted_ending (t : Interrupts.turn) :
  snd (Interrupts.iteration mentisPrompt mentis t)
  = if ends mentisPrompt mentis t
    then snd (Interrupts.iteration mentisPrompt mentis t)
    else Interrupts.Continues.
Proof.
  destruct t as [inp i]. unfold Interrupts.iteration, ends.
  cbn [Interrupts.input Interrupts.interrupt].
  pose proof (iteration_control mentisPrompt mentis inp) as H.
  destruct (iteration mentisPrompt mentis inp) as [out ctl].
  cbn [fst snd] in *. subst ctl.
  destruct (stops inp); [done |]. cbn [orb].
  destruct i as [k|]; [| done].
  by destruct (k <? length out)%nat.
Qed.

Lemma interrupted_ends (t : Interrupts.turn) :
  ends mentisPrompt mentis t = true ->
  snd (Interrupts.iteration mentisPrompt mentis t) <> Interrupts.Continues.
Proof.
  destruct t as [inp i]. unfold Interrupts.iteration, ends.
  cbn [Interrupts.input Interrupts.interrupt].
  pose proof (iteration_control mentisPrompt mentis inp) as H.
  destruct (iteration mentisPrompt mentis inp) as [out ctl].
  cbn [fst snd] in *. subst ctl.
  destruct i as [k|].
  - destruct (k <? length out)%nat.
    + by destruct (k <? Interrupts.in_try mentisPrompt mentis inp)%nat.
    + rewrite orb_false_r. by intros ->.
  - rewrite orb_false_r. by intros ->.
Qed.

Lemma interrupted_calls (t : Interrupts.turn) :
  chat_calls (fst (Interrupts.iteration mentisPrompt mentis t))
  = turn_query t.
Proof.
  destruct t as [inp i]. unfold Interrupts.iteration, turn_query.
  cbn [Interrupts.input Interrupts.interrupt].
  assert (Hquiet : forall out ctl,
             chat_calls out = [] ->
             chat_calls
               (fst (match i with
                     | None => (out, ctl)
                     | Some k =>
                       if (k <? length out)%nat then
                         if (k <? Interrupts.in_try mentisPrompt mentis inp)%nat
                         then
                           ((firstn k out ++ Interrupts.under_way out k
                               ++ [Print (nl +:+ "=K Goodbye from Mentis!")])%list,
                            Interrupts.Breaks)
                         else (firstn k out, Interrupts.Escapes)
                       else (out, ctl)
                     end)) = []).
  { intros out ctl Hout. destruct i as [k|]; [| done].
    destruct (k <? length out)%nat; [| done].
    destruct (k <? Interrupts.in_try mentisPrompt mentis inp)%nat; cbn [fst].
    - by rewrite !chat_calls_app, chat_calls_firstn, under_way_prints.
    - by apply chat_calls_firstn. }
  destruct inp as [text| |e]; [| by apply Hquiet..].
  unfold stops. unfold iteration in *.
  destruct (decide (lower (strip text) ∈ exit_tokens)) as [H|H].
  { rewrite bool_decide_true by done. by apply Hquiet. }
  rewrite bool_decide_false by done.
  destruct (decide (strip text = "")) as [He|He]; [by apply Hquiet |].
  clear Hquiet. unfold Interrupts.in_try.
  destruct (decide (lower (strip text) ∈ exit_tokens)); [done |].
  destruct (decide (strip text = "")); [done |].
  set (tail := match chat mentisPrompt mentis (strip text) with
               | Return response => response_block response
               | Raise e => error_report e
               end).
  assert (Htail : chat_calls tail = []).
  { unfold tail. by destruct (chat mentisPrompt mentis (strip text)). }
  destruct i as [[|[|k]]|]; cbn [fst].
  - unfold tail. by destruct (chat mentisPrompt mentis (strip text)).
  - unfold tail. by destruct (chat mentisPrompt mentis (strip text)).
  - destruct (S (S k) <? length (analysing :: Chat (strip text) :: tail))%nat;
      [| cbn [fst chat_calls analysing]; by rewrite Htail].
    match goal with |- context [if ?b then _ else _] => destruct b end;
      cbn [fst firstn app chat_calls analysing].
    + rewrite chat_calls_app, chat_calls_app, chat_calls_firstn by done.
      unfold Interrupts.under_way. cbn [nth_error].
      pose proof (under_way_prints k tail Htail) as Hu.
      unfold Interrupts.under_way in Hu. by rewrite Hu.
    + by rewrite chat_calls_firstn.
  - cbn [chat_calls analysing]. by rewrite Htail.
Qed.

Lemma interrupted_loop_cons (t : Interrupts.turn)
      (rest : list Interrupts.turn) :
  Interrupts.loop mentisPrompt mentis (t :: rest)
  = if ends mentisPrompt mentis t
    then (fst (Interrupts.iteration mentisPrompt mentis t),
          Some (snd (Interrupts.iteration mentisPrompt mentis t)))
    else ((fst (Interrupts.iteration mentisPrompt mentis t)
             ++ fst (Interrupts.loop mentisPrompt mentis rest))%list,
          snd (Interrupts.loop mentisPrompt mentis rest)).
Proof.
  cbn [Interrupts.loop].
  pose proof (interrupted_ending t) as H.
  pose proof (interrupted_ends t) as H'.
  destruct (Interrupts.iteration mentisPrompt mentis t) as [out e].
  cbn [fst snd] in *.
  destruct (ends mentisPrompt mentis t).
  - by destruct e; [destruct H' | |].
  - subst e. by destruct (Interrupts.loop mentisPrompt mentis rest).
Qed.

(** Without a later interrupt the loop is the loop over the inputs. *)
Lemma loop_quiet (inputs : list input_event) :
  Interrupts.loop mentisPrompt mentis (map Interrupts.quiet inputs)
  = (fst (loop mentisPrompt mentis inputs),
     match snd (loop mentisPrompt mentis inputs) with
     | Some _ => Some Interrupts.Breaks
     | None => None
     end).
Proof.
  induction inputs as [|inp rest IH]; [done |].
  cbn [map Interrupts.loop loop]. rewrite IH.
  unfold Interrupts.iteration. cbn [Interrupts.quiet Interrupts.input
                                     Interrupts.interrupt].
  destruct (iteration mentisPrompt mentis inp) as [out [|]]; [done |].
  by destruct (loop mentisPrompt mentis rest).
Qed.


(** X8.  The chat is called once for each line that is neither blank nor
    an exit token and that no keyboard interrupt precedes in its turn, in
    the order of the lines and with the trimmed text, up to the turn that
    ends the loop. *)
Theorem loop_chat_calls (turns : list Interrupts.turn) :
  chat_calls (fst (Interrupts.loop mentisPrompt mentis turns))
  = queries_of_turns mentisPrompt mentis turns.
Proof.
  induction turns as [|t rest IH]; [done |].
  rewrite interrupted_loop_cons. cbn [queries_of_turns].
  destruct (ends mentisPrompt mentis t); cbn [fst].
  - by rewrite interrupted_calls, app_nil_r.
  - by rewrite chat_calls_app, interrupted_calls, IH.
Qed.

End InterruptedLoop.

(** An interrupt while the chat call is under way is caught and ends the
    loop; the line after it is never read.  An interrupt while the error
    report is printed leaves [main]. *)
Example interrupt_during_chat :
  let mentis :=
    {| MentisChat.retrieve := fun _ => Return (MentisChat.Dict None);
       MentisChat.generate := fun _ => Return "An answer." |} in
  Interrupts.loop "" mentis
                  [ {| Interrupts.input := Main.Line " What? ";
                       Interrupts.interrupt := Some 1 |};
                    Interrupts.quiet (Main.Line "And then?") ]
  = ([ Main.analysing; Main.Chat "What?";
       Main.Print (nl +:+ "=K Goodbye from Mentis!") ],
     Some Interrupts.Breaks).
Proof. reflexivity. Qed.

Example interrupt_in_handler :
  let mentis :=
    {| MentisChat.retrieve :=
         fun _ => Raise (Exc OtherException "no connection");
       MentisChat.generate := fun _ => Return "An answer." |} in
  Interrupts.loop "" mentis
                  [ {| Interrupts.input := Main.Line "What?";
                       Interrupts.interrupt := Some 3 |};
                    Interrupts.quiet (Main.Line "And then?") ]
  = ([ Main.analysing; Main.Chat "What?";
       Main.Print ("L Error: no connection") ],
     Some Interrupts.Escapes).
Proof. reflexivity. Qed.

(** ** The dataset, whatever the retriever does *)

Section DatasetRuns.
Import RetrievalEvaluator Spec.

Variable retrieve : string -> nat -> outcome (list string).

Lemma collect_raise (top_k : nat) (before rest : list string)
      (query : string) (e : exception) (d : eval_data) :
  Forall (fun q => exists docs, retrieve q top_k = Return docs) before ->
  retrieve query top_k = Raise e ->
  collect retrieve (before ++ query :: rest) top_k d = Raise e.
Proof.
  intros Hbefore Hq. revert d.
  induction Hbefore as [|q before [docs Hdocs] _ IH]; intros d.
  - cbn [app collect]. by rewrite Hq.
  - cbn [app collect]. rewrite Hdocs. destruct docs; apply IH.
Qed.

Lemma collect_returns (top_k : nat) (queries : list string) (d : eval_data) :
  Forall (fun q => exists docs, retrieve q top_k = Return docs) queries ->
  collect retrieve queries top_k d
  = Return
      {| user_input :=
           (user_input d ++ map fst (valid_rows retrieve queries top_k))%list;
         retrieved_contexts :=
           (retrieved_contexts d
              ++ map snd (valid_rows retrieve queries top_k))%list |}.
Proof.
  intros H. revert d.
  induction H as [|q queries [docs Hdocs] _ IH]; intros d.
  - cbn. rewrite !app_nil_r. by destruct d.
  - cbn [collect valid_rows flat_map]. fold (valid_rows retrieve queries top_k).
    rewrite Hdocs. destruct docs as [|doc docs]; rewrite IH; cbn;
      by rewrite <- ?app_assoc.
Qed.

Lemma valid_rows_sublist (top_k : nat) (queries : list string) :
  sublist (map fst (valid_rows retrieve queries top_k)) queries.
Proof.
  induction queries as [|q queries IH]; [constructor |].
  cbn [valid_rows flat_map]. fold (valid_rows retrieve queries top_k).
  destruct (retrieve q top_k) as [[|doc docs]|e]; cbn;
    by constructor.
Qed.

(** X10.  [create_ragas_dataset] has no [try] of its own: the first query
    for which [retrieve] raises ends the loop with that exception, the
    queries after it are not tried, and [evaluate_retriever] then answers
    with the error record of that exception. *)
Theorem first_raise_aborts_dataset (before rest : list string)
        (query : string) (e : exception) :
  (forall top_k,
      Forall (fun q => exists docs, retrieve q top_k = Return docs) before ->
      retrieve query top_k = Raise e ->
      create_ragas_dataset retrieve (before ++ query :: rest) top_k = Raise e)
  /\ (Forall (fun q => exists docs, retrieve q 5 = Return docs) before ->
      retrieve query 5 = Raise e ->
      forall float_of_str evaluate metric_names retriever_name,
        evaluate_retriever float_of_str evaluate metric_names retriever_name
                           retrieve (before ++ query :: rest)
        = [("error", VStr (exc_str e))]).
Proof.
  split.
  - intros top_k Hb Hq. unfold create_ragas_dataset.
    by rewrite (collect_raise top_k before rest query e).
  - intros Hb Hq float_of_str evaluate metric_names retriever_name.
    unfold evaluate_retriever, create_ragas_dataset.
    by rewrite (collect_raise 5 before rest query e).
Qed.

(** X11.  When [retrieve] raises for none of the queries, the dataset is
    built: it has the queries that got at least one text, in their order
    and each with its texts, so never more rows than queries. *)
Theorem dataset_without_raise (top_k : nat) (queries : list string) :
  Forall (fun q => exists docs, retrieve q top_k = Return docs) queries ->
  create_ragas_dataset retrieve queries top_k
  = Return (valid_rows retrieve queries top_k)
  /\ sublist (map fst (valid_rows retrieve queries top_k)) queries
  /\ length (valid_rows retrieve queries top_k) <= length queries.
Proof.
  intros H. split; [| split].
  - unfold create_ragas_dataset. rewrite collect_returns by done.
    unfold from_dict. cbn. by rewrite combine_fst_snd.
  - apply valid_rows_sublist.
  - pose proof (sublist_length _ _ (valid_rows_sublist top_k queries)) as Hl.
    by rewrite length_map in Hl.
Qed.

End DatasetRuns.

Lemma first_raise_aborts_dataset_witness :
  let retrieve : string -> nat -> outcome (list string) :=
    fun query _ =>
      if String.eqb query "second" then Raise (Exc OtherException "store down")
      else Return ["chunk"] in
  RetrievalEvaluator.create_ragas_dataset
    retrieve (["first"] ++ "second" :: ["third"]) 5
  = Raise (Exc OtherException "store down")
  /\ RetrievalEvaluator.evaluate_retriever
       (fun _ => None) (fun _ => Raise (Exc OtherException "unused"))
       [] "simple_rag" retrieve (["first"] ++ "second" :: ["third"])
     = [("error", RetrievalEvaluator.VStr "store down")].
Proof.
  intros retrieve.
  pose proof (first_raise_aborts_dataset
                retrieve ["first"] ["third"] "second"
                (Exc OtherException "store down")) as [H1 H2].
  assert (Hb : Forall (fun q => exists docs, retrieve q 5 = Return docs)
                      ["first"]).
  { constructor; [by exists ["chunk"] | constructor]. }
  split.
  - apply H1; [exact Hb | reflexivity].
  - apply H2; [exact Hb | reflexivity].
Defined.

Lemma dataset_without_raise_witness :
  let retrieve : string -> nat -> outcome (list string) :=
    fun query _ =>
      if String.eqb query "second" then Return [] else Return ["chunk"] in
  RetrievalEvaluator.create_ragas_dataset retrieve ["first"; "second"; "third"] 5
  = Return (Spec.valid_rows retrieve ["first"; "second"; "third"] 5)
  /\ sublist (map fst (Spec.valid_rows retrieve ["first"; "second"; "third"] 5))
             ["first"; "second"; "third"]
  /\ length (Spec.valid_rows retrieve ["first"; "second"; "third"] 5)
     <= length ["first"; "second"; "third"].
Proof.
  intros retrieve.
  apply (dataset_without_raise retrieve 5 ["first"; "second"; "third"]).
  repeat constructor; eexists; reflexivity.
Defined.

Section DatasetClaim.
Import RetrievalEvaluator Spec.

Variable retrieve : string -> nat -> outcome (list string).


End DatasetClaim.



(** ** The pattern of the printed score *)

Section Pattern.
Import RetrievalEvaluator Spec.

Lemma prefix_app (p t : string) : String.prefix p (p +:+ t) = true.
Proof.
  induction p as [|a p IH]; [by destruct t |].
  rewrite string_app_cons. cbn. by destruct (ascii_dec a a).
Qed.

Lemma prefix_split (p s : string) :
  String.prefix p s = true -> exists t, s = p +:+ t.
Proof.
  revert s. induction p as [|a p IH]; intros s H; [by exists s |].
  destruct s as [|b s]; [done |]. cbn in H.
  destruct (ascii_dec a b) as [->|]; [| done].
  destruct (IH s H) as [t ->]. by exists t.
Qed.

Lemma prefix_app_both (p g t : string) :
  String.prefix (p +:+ g) (p +:+ t) = String.prefix g t.
Proof.
  induction p as [|a p IH]; [done |].
  rewrite !string_app_cons. cbn. by destruct (ascii_dec a a).
Qed.

Lemma drop_chars_app (p t : string) :
  drop_chars (String.length p) (p +:+ t) = t.
Proof. induction p as [|a p IH]; [by destruct t | done]. Qed.

Lemma take_while_all (p : ascii -> bool) (s : string) :
  all_chars p (take_while p s) = true.
Proof.
  induction s as [|a s IH]; [done |]. cbn.
  destruct (p a) eqn:Ha; [| done]. cbn. by rewrite Ha.
Qed.

Lemma take_while_prefix (p : ascii -> bool) (s : string) :
  String.prefix (take_while p s) s = true.
Proof.
  induction s as [|a s IH]; [done |]. cbn.
  destruct (p a); [| done]. cbn. by destruct (ascii_dec a a).
Qed.

Lemma contains_prefix (needle s : string) :
  String.prefix needle s = true -> contains needle s = true.
Proof. intros H. destruct s; cbn [contains]; by rewrite H. Qed.

Lemma contains_cons (needle s : string) (a : ascii) :
  contains needle s = true -> contains needle (String a s) = true.
Proof.
  intros H. cbn [contains]. rewrite H.
  by destruct (String.prefix needle (String a s)).
Qed.

Lemma match_here_facts (s group1 : string) :
  match_here s = Some group1 ->
  group1 <> ""
  /\ all_chars digit_or_dot group1 = true
  /\ String.prefix (score_pattern +:+ group1) s = true
  /\ contains score_key s = true.
Proof.
  unfold match_here.
  destruct (String.prefix score_pattern s) eqn:Hp; [| done].
  apply prefix_split in Hp as [t ->]. rewrite drop_chars_app.
  pose proof (take_while_all digit_or_dot t) as Hall.
  pose proof (take_while_prefix digit_or_dot t) as Hpre.
  destruct (take_while digit_or_dot t) as [|a g] eqn:Hg; [done |].
  intros [= <-]. split; [done |]. split; [done |]. split.
  - by rewrite prefix_app_both.
  - apply contains_cons, contains_prefix.
    apply (prefix_app score_key ("': " +:+ t)).
Qed.

Lemma re_search_facts (s group1 : string) :
  re_search s = Some group1 ->
  group1 <> ""
  /\ all_chars digit_or_dot group1 = true
  /\ contains (score_pattern +:+ group1) s = true
  /\ contains score_key s = true.
Proof.
  induction s as [|a s IH]; [done |]. cbn [re_search].
  destruct (match_here (String a s)) as [g|] eqn:Hm.
  - intros [= ->].
    destruct (match_here_facts _ _ Hm) as (H1 & H2 & H3 & H4).
    split; [done |]. split; [done |]. split; [by apply contains_prefix | done].
  - intros H. destruct (IH H) as (H1 & H2 & H3 & H4).
    split; [done |]. split; [done |]. split; by apply contains_cons.
Qed.

(** X12.  In a printed result of ASCII characters, what the pattern
    search takes is never empty, holds only digits and dots, and stands in
    the text right after the quoted key and a colon; so the search finds
    nothing in a text that does not hold the key: the test
    [in str(results)] before it changes nothing. *)
Theorem re_search_sound (s group1 : string) :
  ascii_text s = true ->
  re_search s = Some group1 ->
  group1 <> ""
  /\ all_chars digit_or_dot group1 = true
  /\ contains (score_pattern +:+ group1) s = true
  /\ contains score_key s = true.
Proof. intros _. apply re_search_facts. Qed.

End Pattern.

Lemma re_search_sound_witness :
  "0.8333" <> ""
  /\ Spec.all_chars RetrievalEvaluator.digit_or_dot "0.8333" = true
  /\ RetrievalEvaluator.contains
       (RetrievalEvaluator.score_pattern +:+ "0.8333")
       "{'nv_context_relevance': 0.8333}" = true
  /\ RetrievalEvaluator.contains RetrievalEvaluator.score_key
                                 "{'nv_context_relevance': 0.8333}" = true.
Proof.
  apply (re_search_sound "{'nv_context_relevance': 0.8333}" "0.8333");
    reflexivity.
Defined.

(** ** Which score ends up in the record *)

Section ScorePrecedence.
Import RetrievalEvaluator Spec.

Variable float_of_str : string -> option pyfloat.
Variable evaluate : list sample -> outcome evaluation_result.
Variable metric_names : list string.

Lemma score_from_text_run (results : evaluation_result) (raw : string)
      (d : record) :
  result_str results = Return raw ->
  score_from_text float_of_str results d
  = match printed_score float_of_str raw with
    | None => (Return tt, d)
    | Some None =>
      (Raise (Exc ValueError "could not convert string to float"), d)
    | Some (Some f) => (Return tt, setitem d score_key (VFloat f))
    end.
Proof.
  intros Hstr. unfold score_from_text, printed_score, bind, lift.
  rewrite Hstr. destruct (re_search raw) as [g|] eqn:Hg.
  - destruct (re_search_facts _ _ Hg) as (_ & _ & _ & ->).
    unfold float_of_text. by destruct (float_of_str g).
  - by destruct (contains score_key raw).
Qed.

Lemma evaluate_retriever_extract
      (retrieve : string -> nat -> outcome (list string))
      (queries : list string) (retriever_name : string)
      (dataset : list sample) (results : evaluation_result) (raw : string) :
  create_ragas_dataset retrieve queries 5 = Return dataset ->
  dataset <> [] ->
  evaluate dataset = Return results ->
  result_str results = Return raw ->
  evaluate_retriever float_of_str evaluate metric_names retriever_name
                     retrieve queries
  = snd (extract_scores float_of_str results
           (summary_record retriever_name (length dataset) raw)).
Proof.
  intros Hds Hne Hev Hstr. unfold evaluate_retriever. rewrite Hds.
  destruct dataset as [|row rows]; [done |]. rewrite Hev.
  rewrite process_results_body. unfold bind, summary, bind, lift, assign.
  rewrite Hstr.
  fold (summary_record retriever_name (length (row :: rows)) raw).
  by destruct (extract_scores_shape
                 float_of_str results
                 (summary_record retriever_name (length (row :: rows)) raw))
    as [-> | [f ->]].
Qed.

Lemma store_score (retriever_name : string) (n : nat) (raw : string)
      (f : pyfloat) :
  setitem (summary_record retriever_name n raw) score_key (VFloat f)
  = scored_record retriever_name n raw f.
Proof. reflexivity. Qed.

Section OneEvaluation.

Variable retrieve : string -> nat -> outcome (list string).
Variable queries : list string.
Variable retriever_name : string.
Variable dataset : list sample.
Variable results : evaluation_result.
Variable raw : string.

Hypothesis Hdataset : create_ragas_dataset retrieve queries 5 = Return dataset.
Hypothesis Hrows : dataset <> [].
Hypothesis Hevaluate : evaluate dataset = Return results.
Hypothesis Hstr : result_str results = Return raw.
Hypothesis Hgetitem : has_getitem results = true.

(** X13.  For a printed result of ASCII characters: when the direct
    access [results['nv_context_relevance']] gives a number, that number
    is the score of the record, also when the printed result showed
    another one; provided the printed one, if any, was a number that
    [float] accepts. *)
Theorem direct_access_wins (score : pyobj) (f : pyfloat) :
  ascii_text raw = true ->
  printed_score float_of_str raw <> Some None ->
  getitem results score_key = Return score ->
  float_of_obj float_of_str score = Return f ->
  evaluate_retriever float_of_str evaluate metric_names retriever_name
                     retrieve queries
  = scored_record retriever_name (length dataset) raw f.
Proof.
  intros _ Hprinted Hitem Hfloat.
  rewrite (evaluate_retriever_extract _ _ _ _ _ _ Hdataset Hrows Hevaluate Hstr).
  unfold extract_scores. rewrite Hgetitem.
  unfold try_except at 1, bind at 1.
  rewrite (score_from_text_run _ _ _ Hstr).
  destruct (printed_score float_of_str raw) as [[f0|]|]; [| done |];
    unfold score_from_item, try_except, bind, lift, store;
    rewrite Hitem, Hfloat; cbn [snd];
    by rewrite ?setitem_setitem, store_score.
Qed.

(** X14.  For a printed result of ASCII characters: when the direct
    access fails, whatever the exception, or gives an object that [float]
    rejects, the number read from the printed result stays the score of
    the record. *)
Theorem printed_score_is_fallback (f : pyfloat) :
  ascii_text raw = true ->
  printed_score float_of_str raw = Some (Some f) ->
  (exists e, getitem results score_key = Raise e)
  \/ (exists score e,
         getitem results score_key = Return score
         /\ float_of_obj float_of_str score = Raise e) ->
  evaluate_retriever float_of_str evaluate metric_names retriever_name
                     retrieve queries
  = scored_record retriever_name (length dataset) raw f.
Proof.
  intros _ Hprinted Hfails.
  rewrite (evaluate_retriever_extract _ _ _ _ _ _ Hdataset Hrows Hevaluate Hstr).
  unfold extract_scores. rewrite Hgetitem.
  unfold try_except at 1, bind at 1.
  rewrite (score_from_text_run _ _ _ Hstr), Hprinted.
  unfold score_from_item, try_except, bind, lift, store.
  destruct Hfails as [[e He] | (score & e & Hitem & Hfloat)].
  - rewrite He. by destruct (one_of [KeyError; TypeError] e).
  - rewrite Hitem, Hfloat. by destruct (one_of [KeyError; TypeError] e).
Qed.

(** X15.  For a printed result of ASCII characters: when it shows, after
    the key, digits and dots that [float] rejects (as in 1.2.3), the
    record gets no score at all: the direct access is not tried, whatever
    it would have given. *)
Theorem malformed_printed_score_blocks :
  ascii_text raw = true ->
  printed_score float_of_str raw = Some None ->
  evaluate_retriever float_of_str evaluate metric_names retriever_name
                     retrieve queries
  = summary_record retriever_name (length dataset) raw.
Proof.
  intros _ Hprinted.
  rewrite (evaluate_retriever_extract _ _ _ _ _ _ Hdataset Hrows Hevaluate Hstr).
  unfold extract_scores. rewrite Hgetitem.
  unfold try_except at 1, bind at 1.
  by rewrite (score_from_text_run _ _ _ Hstr), Hprinted.
Qed.

End OneEvaluation.

End ScorePrecedence.

Lemma direct_access_wins_witness :
  let float_of_str :=
    fun s => if String.eqb s "0.8333" then Some (Float "0.8333") else None in
  let results :=
    {| RetrievalEvaluator.result_str := Return "{'nv_context_relevance': 0.8333}";
       RetrievalEvaluator.has_getitem := true;
       RetrievalEvaluator.getitem :=
         fun _ => Return (RetrievalEvaluator.OFloat (Float "0.5")) |} in
  RetrievalEvaluator.evaluate_retriever
    float_of_str (fun _ => Return results) [] "simple_rag"
    (fun _ _ => Return ["chunk"]) ["What?"]
  = Spec.scored_record "simple_rag" 1 "{'nv_context_relevance': 0.8333}"
                       (Float "0.5").
Proof.
  intros float_of_str results.
  apply (direct_access_wins
           float_of_str (fun _ => Return results) []
           (fun _ _ => Return ["chunk"]) ["What?"] "simple_rag"
           [("What?", ["chunk"])] results "{'nv_context_relevance': 0.8333}")
    with (score := RetrievalEvaluator.OFloat (Float "0.5"));
    try reflexivity; discriminate.
Defined.

Lemma printed_score_is_fallback_witness :
  let float_of_str :=
    fun s => if String.eqb s "0.8333" then Some (Float "0.8333") else None in
  let results :=
    {| RetrievalEvaluator.result_str := Return "{'nv_context_relevance': 0.8333}";
       RetrievalEvaluator.has_getitem := true;
       RetrievalEvaluator.getitem := fun key => Raise (Exc OtherException key) |} in
  RetrievalEvaluator.evaluate_retriever
    float_of_str (fun _ => Return results) [] "simple_rag"
    (fun _ _ => Return ["chunk"]) ["What?"]
  = Spec.scored_record "simple_rag" 1 "{'nv_context_relevance': 0.8333}"
                       (Float "0.8333").
Proof.
  intros float_of_str results.
  apply (printed_score_is_fallback
           float_of_str (fun _ => Return results) []
           (fun _ _ => Return ["chunk"]) ["What?"] "simple_rag"
           [("What?", ["chunk"])] results "{'nv_context_relevance': 0.8333}");
    try reflexivity; [discriminate |].
  left. by eexists.
Defined.

Lemma malformed_printed_score_blocks_witness :
  let float_of_str :=
    fun s => if String.eqb s "0.8333" then Some (Float "0.8333") else None in
  let results :=
    {| RetrievalEvaluator.result_str := Return "{'nv_context_relevance': 1.2.3}";
       RetrievalEvaluator.has_getitem := true;
       RetrievalEvaluator.getitem :=
         fun _ => Return (RetrievalEvaluator.OFloat (Float "0.5")) |} in
  RetrievalEvaluator.evaluate_retriever
    float_of_str (fun _ => Return results) [] "simple_rag"
    (fun _ _ => Return ["chunk"]) ["What?"]
  = Spec.summary_record "simple_rag" 1 "{'nv_context_relevance': 1.2.3}".
Proof.
  intros float_of_str results.
  apply (malformed_printed_score_blocks
           float_of_str (fun _ => Return results) []
           (fun _ _ => Return ["chunk"]) ["What?"] "simple_rag"
           [("What?", ["chunk"])] results "{'nv_context_relevance': 1.2.3}");
    try reflexivity; discriminate.
Defined.

(** ** A whole run, and what it leaves on disk *)

Section Runs.
Import RetrievalEvaluator Spec.

Variable float_of_str : string -> option pyfloat.
Variable evaluate : list sample -> outcome evaluation_result.
Variable metric_names : list string.
Variable queries : list string.

Lemma setitem_fresh {V : Type} (d : pydict V) (key : string) (v : V) :
  ~ In key (map fst d) -> setitem d key v = (d ++ [(key, v)])%list.
Proof.
  induction d as [|[k x] d IH]; [done |]. cbn [map fst setitem app In].
  intros H. destruct (String.eqb_spec k key) as [->|_]; [tauto |].
  rewrite IH; [done | tauto].
Qed.

Lemma run_evaluation_fold (adapters : pydict retriever)
      (all_results : pydict record) :
  NoDup (map fst all_results ++ map fst adapters) ->
  fold_left
    (fun all_results '(name, adapter) =>
       setitem all_results name
               (evaluate_retriever float_of_str evaluate metric_names name
                                   (adapter_retrieve adapter) queries))
    adapters all_results
  = (all_results
       ++ map (fun entry =>
                 (fst entry,
                  evaluate_retriever float_of_str evaluate metric_names
                                     (fst entry)
                                     (adapter_retrieve (snd entry)) queries))
              adapters)%list.
Proof.
  revert all_results.
  induction adapters as [|[name adapter] adapters IH]; intros all_results Hnd.
  - cbn. by rewrite app_nil_r.
  - cbn [fold_left map fst snd].
    assert (Hfresh : ~ In name (map fst all_results)).
    { intros Hin%list_elem_of_In. apply NoDup_app in Hnd as (_ & Hd & _).
      apply (Hd name Hin). cbn. by left. }
    rewrite setitem_fresh by done. rewrite IH.
    + by rewrite <- app_assoc.
    + rewrite map_app. cbn [map fst]. rewrite <- app_assoc. exact Hnd.
Qed.

Lemma run_evaluation_map (adapters : pydict retriever) :
  NoDup (map fst adapters) ->
  run_evaluation float_of_str evaluate metric_names queries adapters
  = map (fun entry =>
           (fst entry,
            evaluate_retriever float_of_str evaluate metric_names (fst entry)
                               (adapter_retrieve (snd entry)) queries))
        adapters.
Proof.
  intros Hnd. unfold run_evaluation. by rewrite run_evaluation_fold.
Qed.

(** X16.  An evaluation run gives one record for each adapter, under the
    adapter's name and in the order of the adapters, and the record of an
    adapter is what evaluating it alone gives: what happens to one
    retriever changes nothing for the others. *)
Theorem run_evaluation_is_pointwise (adapters : pydict retriever) :
  NoDup (map fst adapters) ->
  run_evaluation float_of_str evaluate metric_names queries adapters
  = map (fun entry =>
           (fst entry,
            evaluate_retriever float_of_str evaluate metric_names (fst entry)
                               (adapter_retrieve (snd entry)) queries))
        adapters.
Proof. apply run_evaluation_map. Qed.

Lemma save_results_union (results : pydict record) (output_dir : string)
      (files : gmap string string) :
  save_results results output_dir files
  = save_results results output_dir ∅ ∪ files.
Proof.
  revert files. induction results as [|[name result] results IH];
    intros files.
  - cbn. by rewrite (left_id_L ∅ (∪)).
  - unfold save_results in *. cbn [fold_left].
    destruct (contains_key "error" result); [apply IH |].
    rewrite IH. rewrite (IH (<[_:=_]> ∅)).
    rewrite insert_empty, (insert_union_singleton_l files).
    by rewrite (assoc_L (∪)).
Qed.

(** X17.  What [save_results] writes does not depend on what the
    directory held: the files after it are the written ones laid over the
    old ones; so saving the same results a second time changes nothing. *)
Theorem save_results_idempotent (results : pydict record)
        (output_dir : string) (files : gmap string string) :
  save_results results output_dir files
  = save_results results output_dir ∅ ∪ files
  /\ save_results results output_dir (save_results results output_dir files)
     = save_results results output_dir files.
Proof.
  split; [apply save_results_union |].
  rewrite (save_results_union results output_dir (save_results _ _ files)).
  rewrite (save_results_union results output_dir files).
  by rewrite (assoc_L (∪)), (idemp_L (∪)).
Qed.

End Runs.

Lemma run_evaluation_is_pointwise_witness :
  let results :=
    {| RetrievalEvaluator.result_str := Return "<EvaluationResult>";
       RetrievalEvaluator.has_getitem := false;
       RetrievalEvaluator.getitem := fun key => Raise (Exc KeyError key) |} in
  let adapters : RetrievalEvaluator.pydict RetrievalEvaluator.retriever :=
    [ ("simple_rag", fun _ _ => Return ["chunk"]);
      ("summary_rag", fun _ _ => Raise (Exc OtherException "down")) ] in
  RetrievalEvaluator.run_evaluation
    (fun _ => None) (fun _ => Return results) [] ["What?"] adapters
  = [ ("simple_rag", Spec.summary_record "simple_rag" 1 "<EvaluationResult>");
      ("summary_rag", RetrievalEvaluator.error_record "No valid data") ].
Proof.
  intros results adapters.
  rewrite (run_evaluation_is_pointwise
             (fun _ => None) (fun _ => Return results) [] ["What?"] adapters).
  - reflexivity.
  - apply (bool_decide_unpack _). vm_compute. exact I.
Defined.

Section RunAndSave.
Import RetrievalEvaluator Spec.

Variable float_of_str : string -> option pyfloat.
Variable evaluate : list sample -> outcome evaluation_result.
Variable metric_names : list string.
Variable queries : list string.
Variable output_dir : string.
Variable files : gmap string string.

Lemma save_results_skipped (results : pydict record) (name : string)
      (result : record) :
  NoDup (map fst results) ->
  In (name, result) results -> contains_key "error" result = true ->
  save_results results output_dir files !! output_file output_dir name
  = files !! output_file output_dir name.
Proof.
  intros Hnd Hin He. apply save_results_other.
  intros name' result' Hin' He' Heq. apply output_file_inj in Heq as ->.
  rewrite (nodup_keys_functional results name' result result') in He;
    [congruence | done..].
Qed.

(** X18.  After a run and the saving of its results in a directory that
    can be made and whose files can be opened, the file of a retriever is
    left as it was when the retriever found nothing for any query or when
    the scoring library raised; when the scoring returned, the file holds
    the dumped record, which names the retriever, counts the queries that
    got texts and keeps the printed result. *)
Theorem run_then_save (makedirs open_w : string -> outcome unit)
        (adapters : pydict retriever) (name : string) (r : retriever) :
  NoDup (map fst adapters) ->
  In (name, r) adapters ->
  output_dir <> "" ->
  makedirs output_dir = Return tt ->
  (forall path, open_w path = Return tt) ->
  let after :=
    fst (Disk.save_results
           makedirs open_w
           (run_evaluation float_of_str evaluate metric_names queries adapters)
           output_dir files) in
  let path := output_file output_dir name in
  let rows := valid_rows r queries 5 in
  (rows = [] -> after !! path = files !! path)
  /\ (forall e, rows <> [] -> evaluate rows = Raise e ->
                after !! path = files !! path)
  /\ (forall results raw,
         rows <> [] -> evaluate rows = Return results ->
         result_str results = Return raw ->
         exists result,
           after !! path = Some (dumps result)
           /\ get "retriever" result = Some (VStr name)
           /\ get "num_queries" result = Some (VInt (length rows))
           /\ get "raw_results" result = Some (VStr raw)).
Proof.
  intros Hnd Hin Hdir Hmk Hopen after path rows. subst after path.
  rewrite disk_save_results_ok by done. cbn [fst].
  rewrite run_evaluation_map by done.
  set (E := fun entry : string * retriever =>
              (fst entry,
               evaluate_retriever float_of_str evaluate metric_names
                                  (fst entry) (adapter_retrieve (snd entry))
                                  queries)).
  assert (Hkeys : NoDup (map fst (map E adapters))).
  { rewrite map_map. exact Hnd. }
  assert (Hrec : In (E (name, r)) (map E adapters)) by by apply in_map.
  unfold E at 1 in Hrec. cbn [fst snd] in Hrec.
  pose proof (create_ragas_dataset_adapter r 5 queries) as Hds.
  fold rows in Hds.
  split; [| split].
  - intros Hrows. apply (save_results_skipped _ _ _ Hkeys Hrec).
    unfold evaluate_retriever. by rewrite Hds, Hrows.
  - intros e Hrows He. apply (save_results_skipped _ _ _ Hkeys Hrec).
    unfold evaluate_retriever. rewrite Hds, He. by destruct rows.
  - intros results raw Hrows Hev Hstr.
    rewrite (evaluate_retriever_extract
               float_of_str evaluate metric_names _ _ name rows results raw
               Hds Hrows Hev Hstr) in Hrec.
    eexists. split; [apply (save_results_written _ _ _ _ _ Hkeys Hrec) |];
      destruct (extract_scores_shape
                  float_of_str results
                  (summary_record name (length rows) raw)) as [-> | [f ->]];
      done.
Qed.

End RunAndSave.

Lemma run_then_save_witness :
  let ok : string -> outcome unit := fun _ => Return tt in
  let results :=
    {| RetrievalEvaluator.result_str := Return "<EvaluationResult>";
       RetrievalEvaluator.has_getitem := false;
       RetrievalEvaluator.getitem := fun key => Raise (Exc KeyError key) |} in
  let good : RetrievalEvaluator.retriever := fun _ _ => Return ["chunk"] in
  let empty : RetrievalEvaluator.retriever := fun _ _ => Return [] in
  let adapters := [("simple_rag", good); ("summary_rag", empty)] in
  let files : gmap string string :=
    {[ RetrievalEvaluator.output_file "evaluation" "summary_rag" := "old" ]} in
  let after :=
    fst (Disk.save_results
           ok ok
           (RetrievalEvaluator.run_evaluation
              (fun _ => None) (fun _ => Return results) [] ["What?"] adapters)
           "evaluation" files) in
  after !! RetrievalEvaluator.output_file "evaluation" "summary_rag"
  = files !! RetrievalEvaluator.output_file "evaluation" "summary_rag"
  /\ exists result,
      after !! RetrievalEvaluator.output_file "evaluation" "simple_rag"
      = Some (RetrievalEvaluator.dumps result)
      /\ RetrievalEvaluator.get "retriever" result
         = Some (RetrievalEvaluator.VStr "simple_rag")
      /\ RetrievalEvaluator.get "num_queries" result
         = Some (RetrievalEvaluator.VInt
                   (length (Spec.valid_rows good ["What?"] 5)))
      /\ RetrievalEvaluator.get "raw_results" result
         = Some (RetrievalEvaluator.VStr "<EvaluationResult>").
Proof.
  intros ok results good empty adapters files after.
  assert (Hnd : NoDup (map fst adapters)).
  { apply (bool_decide_unpack _). vm_compute. exact I. }
  split.
  - apply (proj1 (run_then_save
                    (fun _ => None) (fun _ => Return results) [] ["What?"]
                    "evaluation" files ok ok adapters "summary_rag" empty Hnd
                    ltac:(right; left; reflexivity)
                    ltac:(discriminate) eq_refl (fun _ => eq_refl))).
    reflexivity.
  - apply (proj2 (proj2 (run_then_save
                    (fun _ => None) (fun _ => Return results) [] ["What?"]
                    "evaluation" files ok ok adapters "simple_rag" good Hnd
                    ltac:(left; reflexivity)
                    ltac:(discriminate) eq_refl (fun _ => eq_refl)))
             results "<EvaluationResult>");
      [discriminate | reflexivity | reflexivity].
Defined.

(** ** The queries file, the summary and the script *)

Section Script.
Import RetrievalEvaluator Report Spec.

Variable format_3f : pyfloat -> string.
Variable float_of_str : string -> option pyfloat.
Variable evaluate : list sample -> outcome evaluation_result.
Variable metric_names : list string.

(** X19.  The script saves nothing and prints no summary when the queries
    cannot be loaded: it ends with the exception of [load_queries] and the
    files as they were, whatever the adapters.  A missing queries file is no such
    case: it behaves as a file holding the three sample queries, and a
    dict with a "queries" entry as the list in that entry. *)
Theorem script_and_queries_file (adapters : pydict retriever)
        (files : gmap string string) :
  (forall file e,
      load_queries file = Raise e ->
      script format_3f float_of_str evaluate metric_names file adapters files
      = (files, [], Raise e))
  /\ script format_3f float_of_str evaluate metric_names Missing adapters files
     = script format_3f float_of_str evaluate metric_names
              (Content (JList sample_queries)) adapters files
  /\ (forall queries,
         script format_3f float_of_str evaluate metric_names
                (Content (JDict (Some queries))) adapters files
         = script format_3f float_of_str evaluate metric_names
                  (Content (JList queries)) adapters files)
  /\ load_queries (Content (JDict None))
     = Raise (Exc ValueError "Invalid queries file format")
  /\ load_queries (Content JOther)
     = Raise (Exc ValueError "Invalid queries file format").
Proof.
  split; [| by repeat split].
  intros file e H. unfold script, run. by rewrite H.
Qed.

Lemma summary_row_error (name message : string) :
  summary_row format_3f name (error_record message)
  = Return (ljust 15 name +:+ " ERROR: " +:+ message).
Proof. reflexivity. Qed.

Lemma summary_row_unscored (name raw : string) (n : nat) :
  summary_row format_3f name (summary_record name n raw)
  = Return (ljust 15 name +:+ " " +:+ ljust 8 (pretty n) +:+ " "
              +:+ ljust 15 "0.000").
Proof. reflexivity. Qed.

Lemma summary_row_scored (name raw : string) (n : nat) (f : pyfloat) :
  summary_row format_3f name (scored_record name n raw f)
  = Return (ljust 15 name +:+ " " +:+ ljust 8 (pretty n) +:+ " "
              +:+ ljust 15 (format_3f f)).
Proof. reflexivity. Qed.

Lemma summary_row_of_evaluation (name : string)
      (retrieve : string -> nat -> outcome (list string))
      (queries : list string) :
  exists line,
    summary_row format_3f name
                (evaluate_retriever float_of_str evaluate metric_names name
                                    retrieve queries)
    = Return line.
Proof.
  destruct (evaluate_retriever_shapes float_of_str evaluate metric_names
              name retrieve queries)
    as [[message ->] | (dataset & raw & _ & [-> | [f ->]])].
  - rewrite summary_row_error. by eexists.
  - rewrite summary_row_unscored. by eexists.
  - fold (scored_record name (length dataset) raw f).
    rewrite summary_row_scored. by eexists.
Qed.

Lemma summary_rows_total (results : pydict record) :
  Forall (fun entry =>
            exists line, summary_row format_3f (fst entry) (snd entry)
                         = Return line)
         results ->
  exists lines,
    summary_rows format_3f results = (lines, Return tt)
    /\ length lines = length results.
Proof.
  induction 1 as [|[name result] results [line Hline] _ (lines & IH & Hlen)].
  - by exists [].
  - cbn [fst snd] in Hline. cbn [summary_rows]. rewrite Hline, IH.
    exists (line :: lines). cbn. by rewrite Hlen.
Qed.

(** X20.  For the records of a run the summary never fails: it prints its
    five heading lines and then one line for each retriever, whether its
    record is an error, has a score or has none. *)
Theorem print_summary_of_run (queries : list string)
        (adapters : pydict retriever) :
  NoDup (map fst adapters) ->
  exists lines,
    print_summary
      format_3f
      (run_evaluation float_of_str evaluate metric_names queries adapters)
    = ((heading ++ lines)%list, Return tt)
    /\ length lines = length adapters
    /\ length heading = 5.
Proof.
  intros Hnd. rewrite run_evaluation_map by done.
  destruct (summary_rows_total
              (map (fun entry : string * retriever =>
                      (fst entry,
                       evaluate_retriever float_of_str evaluate metric_names
                                          (fst entry)
                                          (adapter_retrieve (snd entry))
                                          queries))
                   adapters))
    as (lines & Hrows & Hlen).
  - apply Forall_forall. intros entry Hin%list_elem_of_In.
    apply in_map_iff in Hin as [[name r] [<- _]]. cbn [fst snd].
    apply summary_row_of_evaluation.
  - exists lines. unfold print_summary. rewrite Hrows.
    rewrite length_map in Hlen. done.
Qed.

(** X21.  A retriever whose scores could not be read shows in the summary
    with a relevance of 0.000, though its record holds no score; one that
    found nothing shows as an error. *)
Theorem summary_shows_zero (name raw : string) (item : string -> outcome pyobj)
        (r : retriever) (queries : list string) :
  summary_row
    format_3f name
    (evaluate_retriever
       float_of_str
       (fun _ => Return {| result_str := Return raw; has_getitem := false;
                           getitem := item |})
       metric_names name (adapter_retrieve r) queries)
  = match valid_rows r queries 5 with
    | [] => Return (ljust 15 name +:+ " ERROR: No valid data")
    | rows =>
      Return (ljust 15 name +:+ " " +:+ ljust 8 (pretty (length rows))
                +:+ " " +:+ ljust 15 "0.000")
    end.
Proof.
  unfold evaluate_retriever. rewrite create_ragas_dataset_adapter.
  by destruct (valid_rows r queries 5).
Qed.

End Script.

Lemma script_and_queries_file_witness :
  Report.script (fun f => float_repr f) (fun _ => None)
                (fun _ => Raise (Exc OtherException "unused")) []
                (Report.Content (Report.JDict None))
                [("simple_rag", fun _ _ => Return ["chunk"])] ∅
  = (∅, [], Raise (Exc ValueError "Invalid queries file format")).
Proof.
  apply (proj1 (script_and_queries_file
                  (fun f => float_repr f) (fun _ => None)
                  (fun _ => Raise (Exc OtherException "unused")) []
                  [("simple_rag", fun _ _ => Return ["chunk"])] ∅)).
  reflexivity.
Defined.

Lemma print_summary_of_run_witness :
  let adapters : RetrievalEvaluator.pydict RetrievalEvaluator.retriever :=
    [ ("simple_rag", fun _ _ => Return ["chunk"]);
      ("summary_rag", fun _ _ => Return []) ] in
  exists lines,
    Report.print_summary
      (fun f => float_repr f)
      (RetrievalEvaluator.run_evaluation
         (fun _ => None) (fun _ => Raise (Exc OtherException "no key")) []
         ["What?"] adapters)
    = ((Report.heading ++ lines)%list, Return tt)
    /\ length lines = length adapters
    /\ length Report.heading = 5.
Proof.
  intros adapters.
  apply (print_summary_of_run
           (fun f => float_repr f) (fun _ => None)
           (fun _ => Raise (Exc OtherException "no key")) [] ["What?"]
           adapters).
  apply (bool_decide_unpack _). vm_compute. exact I.
Defined.

(** ** The mock retriever of the adapter tests *)

Section MockRetrievers.
Import RetrievalEvaluator Spec.

Lemma mock_results_not_empty (name : string)
      (mock_results : option (list string)) :
  Mocks.mock_results (Mocks.new name mock_results) <> [].
Proof. by destruct mock_results as [[|result rest]|]. Qed.

(** X22.  A mock retriever never has an empty list of results: built with
    an empty list it gets the three default results, as when built with no
    list, so that with a positive limit it always returns a text. *)
Theorem mock_is_never_empty (name query : string) (limit : nat) :
  Mocks.retrieve (Mocks.new name (Some [])) query limit
  = Mocks.retrieve (Mocks.new name None) query limit
  /\ (forall mock_results,
         0 < limit ->
         Mocks.retrieve (Mocks.new name mock_results) query limit <> [])
  /\ (forall mock_results,
         length (Mocks.retrieve (Mocks.new name mock_results) query limit)
         = min limit (length (Mocks.mock_results (Mocks.new name mock_results)))).
Proof.
  split; [done |]. split.
  - intros mock_results Hlimit. unfold Mocks.retrieve.
    pose proof (mock_results_not_empty name mock_results) as Hne.
    destruct (Mocks.mock_results (Mocks.new name mock_results)); [done |].
    destruct limit; [lia | done].
  - intros mock_results. unfold Mocks.retrieve. apply length_firstn.
Qed.

(** X23.  Over an adapter that wraps a mock retriever every query is a
    valid sample: with a positive [top_k] the dataset has one row for each
    query, in order, with the first [top_k] results of the mock. *)
Theorem mock_dataset (name : string) (mock_results : option (list string))
        (queries : list string) (top_k : nat) :
  0 < top_k ->
  create_ragas_dataset
    (adapter_retrieve (Mocks.as_retriever (Mocks.new name mock_results)))
    queries top_k
  = Return
      (map (fun query =>
              (query,
               firstn top_k (Mocks.mock_results (Mocks.new name mock_results))))
           queries).
Proof.
  intros Hk. rewrite create_ragas_dataset_adapter.
  pose proof (mock_results_not_empty name mock_results) as Hne.
  set (self := Mocks.new name mock_results) in *.
  assert (Htexts : firstn top_k (Mocks.mock_results self) <> []).
  { destruct (Mocks.mock_results self); [done |]. destruct top_k; [lia | done]. }
  f_equal. clear Hne.
  induction queries as [|query queries IH]; [done |].
  cbn [valid_rows flat_map map].
  fold (valid_rows (Mocks.as_retriever self) queries top_k). rewrite IH.
  unfold Mocks.as_retriever at 1, Mocks.retrieve.
  by destruct (firstn top_k (Mocks.mock_results self)).
Qed.

End MockRetrievers.

Lemma mock_is_never_empty_witness :
  Mocks.retrieve (Mocks.new "simple_rag" (Some [])) "What?" 5
  = ["result1"; "result2"; "result3"]
  /\ Mocks.retrieve (Mocks.new "simple_rag" (Some [])) "What?" 5 <> [].
Proof.
  split; [reflexivity |].
  apply (proj1 (proj2 (mock_is_never_empty "simple_rag" "What?" 5))). lia.
Defined.

Lemma mock_dataset_witness :
  RetrievalEvaluator.create_ragas_dataset
    (RetrievalEvaluator.adapter_retrieve
       (Mocks.as_retriever
          (Mocks.new "simple_rag"
                     (Some ["chunk1"; "chunk2"; "chunk3"; "chunk4"]))))
    ["first"; "second"] 3
  = Return [ ("first", ["chunk1"; "chunk2"; "chunk3"]);
             ("second", ["chunk1"; "chunk2"; "chunk3"]) ].
Proof.
  apply (mock_dataset "simple_rag"
                      (Some ["chunk1"; "chunk2"; "chunk3"; "chunk4"])
                      ["first"; "second"] 3).
  lia.
Defined.
